(** * bert_utils: token dictionaries, sequence encoding, classification
      heads, prediction metrics and class weights

    A shallow embedding of [models/bert_utils.py].  Python integers are
    [Z], dictionaries keyed by strings are [gmap string _], lists and
    numpy index arrays are [list], and an exception is [None] in the
    option monad.  Calls into [random] and [numpy.random] read their
    outcome from an explicit record of draws, so every theorem
    quantifies over all outcomes of the generator.  Functions that the
    module imports from elsewhere ([seq2kmers], the keras_bert base
    dictionary, the keras model loader, the prediction generator and
    the metrics, the taxonomic lineage) are section variables. *)

From Stdlib Require Import ZArith QArith Lia.
From stdpp Require Import base numbers option list strings gmap fin_maps.

Local Open Scope string_scope.
Local Open Scope list_scope.
Local Open Scope Z_scope.

(** ** Python primitives used by the module *)

Module Py.

(** Normalisation of one bound of a slice over a sequence of length
    [n]: a negative bound counts from the end, and both ends are
    clamped to [0..n]. *)
Definition slice_bound (n i : Z) : Z :=
  if bool_decide (i < 0) then Z.max (i + n) 0 else Z.min i n.

(** [l[start:stop]] *)
Definition slice {A} (l : list A) (start stop : Z) : list A :=
  let n := Z.of_nat (length l) in
  let s := slice_bound n start in
  let e := slice_bound n stop in
  take (Z.to_nat (e - s)) (drop (Z.to_nat s) l).

(** [[x] * n]; a count that is not positive gives the empty list. *)
Definition repeat {A} (x : A) (n : Z) : list A := replicate (Z.to_nat n) x.

(** [len(l)] *)
Definition len {A} (l : list A) : Z := Z.of_nat (length l).

(** The outcomes of the two random calls of one [seq2tokens] run. *)
Record draws := Draws { choice_draw : nat; randint_draw : nat }.

(** [random.randint(a, b)] for [a <= b]: some integer of [a..b]. *)
Definition randint (g : nat) (a b : Z) : Z := a + Z.of_nat g mod (b - a + 1).

(** [np.random.choice(l)]: some element of [l]; raises on an empty
    array. *)
Definition random_choice (g : nat) (l : list Z) : option Z :=
  l !! (g mod length l)%nat.

End Py.

(** ** Sequence encoding: [seq2tokens] *)

Section Seq2Tokens.

(** [preprocessing.process_inputs.seq2kmers(seq, k=k, stride=stride,
    pad=pad)] splits a raw sequence into k-mer words; it is defined
    outside this module and is a parameter here. *)
Variable seq2kmers : string → Z → Z → bool → list string.

(** [token_dict[word] if word in token_dict else token_dict['[UNK]']] *)
Definition encode_word (token_dict : gmap string Z) (word : string) : option Z :=
  match token_dict !! word with
  | Some i => Some i
  | None => token_dict !! "[UNK]"
  end.

(** [if max_length is None: max_length = seq_length] *)
Definition seq2tokens_max_length (seq_length : Z) (max_length : option Z) : Z :=
  default seq_length max_length.

(** [if seq_len_like is not None:
       seq_length = min(max_length, np.random.choice(seq_len_like))] *)
Definition seq2tokens_seq_length (rnd : Py.draws) (seq_length : Z)
    (max_length : option Z) (seq_len_like : option (list Z)) : option Z :=
  match seq_len_like with
  | None => Some seq_length
  | Some lens =>
      c ← Py.random_choice (Py.choice_draw rnd) lens;
      Some (Z.min (seq2tokens_max_length seq_length max_length) c)
  end.

(** The [start] and [end] of the slice taken from the k-mer list. *)
Definition seq2tokens_bounds (rnd : Py.draws) (kmers : list string)
    (seq_length : Z) (window : bool) : Z * Z :=
  if window then
    let start :=
      Py.randint (Py.randint_draw rnd) 0 (Z.max (Py.len kmers - seq_length - 1) 0) in
    (start, start + seq_length - 1)
  else (0, seq_length).

(** [seq[start:end]] *)
Definition seq2tokens_window (rnd : Py.draws) (kmers : list string)
    (seq_length : Z) (window : bool) : list string :=
  let '(start, end_) := seq2tokens_bounds rnd kmers seq_length window in
  Py.slice kmers start end_.

(** Padding with [token_dict['']] or truncation to [max_length]. *)
Definition seq2tokens_fit (token_dict : gmap string Z) (indices : list Z)
    (max_length : Z) : option (list Z) :=
  if bool_decide (Py.len indices < max_length) then
    pad ← token_dict !! "";
    Some (indices ++ Py.repeat pad (max_length - Py.len indices))
  else Some (Py.slice indices 0 max_length).

Definition seq2tokens (rnd : Py.draws) (seq : string) (token_dict : gmap string Z)
    (seq_length : Z) (max_length : option Z) (k stride : Z) (window : bool)
    (seq_len_like : option (list Z)) : option (list Z * list Z) :=
  let max_length' := seq2tokens_max_length seq_length max_length in
  seq_length' ← seq2tokens_seq_length rnd seq_length max_length seq_len_like;
  let kmers := seq2kmers seq k stride true in
  cls ← token_dict !! "[CLS]";
  body ← mapM (encode_word token_dict)
            (seq2tokens_window rnd kmers seq_length' window);
  indices ← seq2tokens_fit token_dict (cls :: body) max_length';
  let segments := Py.repeat 0 max_length' in
  Some (indices, segments).

End Seq2Tokens.

(** ** Vocabulary construction: [get_token_dict] *)

Section TokenDict.

(** [keras_bert.get_base_dict()]: the dictionary of special tokens that
    the library hands out; a parameter here. *)
Variable base_dict : gmap string Z.

(** [itertools.product(alph, repeat=k)], in the order in which the
    iterator yields the tuples (the last position varies fastest). *)
Fixpoint product {A} (alph : list A) (repeat : nat) : list (list A) :=
  match repeat with
  | O => [[]]
  | S r => c ← alph; (c ::.) <$> product alph r
  end.

(** [[''.join(_) for _ in product(alph, repeat=k)]] *)
Definition kmer_words (alph : string) (k : nat) : list string :=
  String.string_of_list_ascii <$> product (String.list_ascii_of_string alph) k.

(** A length-[k] string over the symbols of [alph]. *)
Definition is_kmer (alph : string) (k : nat) (w : string) : Prop :=
  String.length w = k
  ∧ Forall (λ c, c ∈ String.list_ascii_of_string alph) (String.list_ascii_of_string w).

(** [token_dict[word] = len(token_dict)] *)
Definition add_word (token_dict : gmap string Z) (word : string) : gmap string Z :=
  <[word := Z.of_nat (size token_dict)]> token_dict.

(** [product] raises [ValueError] on a negative [repeat]. *)
Definition get_token_dict (alph : string) (k : Z) : option (gmap string Z) :=
  if bool_decide (k < 0) then None
  else Some (foldl add_word base_dict (kmer_words alph (Z.to_nat k))).

End TokenDict.

(** ** Classification heads: [generate_bert_with_pretrained_multi_tax] *)

(** The layer graph that the keras functional API builds, as a term:
    a tensor of the loaded checkpoint, the output of a [Dense] layer
    applied to a tensor, or the concatenation of tensors along the last
    axis. *)
#[warnings="-register-all"] Inductive tensor :=
| Pretrained (name : string) (width : Z)
| Dense (units : Z) (activation name : string) (input : tensor)
| Concatenate (inputs : list tensor).

(** The tensor that a [Dense] layer is applied to. *)
Definition head_input (t : tensor) : option tensor :=
  match t with
  | Dense _ _ _ input => Some input
  | _ => None
  end.

(** The size of the last axis of a tensor. *)
Fixpoint tensor_width (t : tensor) : Z :=
  match t with
  | Pretrained _ w => w
  | Dense units _ _ _ => units
  | Concatenate ts => foldr (λ t acc, tensor_width t + acc) 0 ts
  end.

(** A model loaded from a checkpoint: its input tensors and the output
    tensor of each named layer ([model.get_layer(name=...).output]). *)
Record loaded_model := LoadedModel {
  model_inputs : list tensor;
  model_layers : gmap string tensor
}.

(** [keras.Model(inputs=..., outputs=...)] *)
Record keras_model := KerasModel {
  inputs : list tensor;
  outputs : tensor
}.

Section Heads.

(** [keras.models.load_model(path, compile=False, custom_objects=...)];
    [None] when loading raises. *)
Variable load_model : string → option loaded_model.

Definition generate_bert_with_pretrained_multi_tax (pretrained_path : string)
    (nr_classes : Z * Z * Z) : option keras_model :=
  model ← load_model pretrained_path;
  let inputs := Py.slice (model_inputs model) 0 2 in
  nsp_dense_layer ← model_layers model !! "NSP-Dense";
  let '(superkingdoms, families, species) := nr_classes in
  let superkingdoms_out :=
    Dense superkingdoms "softmax" "superkingdoms_softmax" nsp_dense_layer in
  let families_in := Concatenate [nsp_dense_layer; superkingdoms_out] in
  let families_out := Dense families "softmax" "families_softmax" families_in in
  let species_in := Concatenate [nsp_dense_layer; families_out] in
  let species_out := Dense species "softmax" "species_softmax" species_in in
  let out_layer := Concatenate [superkingdoms_out; families_out; species_out] in
  Some (KerasModel inputs out_layer).

End Heads.

(** ** Prediction and summary metrics: [predict] *)

(** The dictionary that [predict] returns. *)
Record prediction {metric target pred X : Type} := Prediction {
  metrics : list metric;
  metrics_names : list string;
  data : option (list target * list pred);
  x : option X
}.
Arguments prediction : clear implicits.
Arguments Prediction {_ _ _ _}.

Section Predict.

Context {model generator metric target pred classes X : Type}.

(** [PredictGenerator(test_generator, store_x=store_x)] *)
Variable PredictGenerator : generator → bool → generator.
(** [model.predict(predict_g, verbose=...)]: the predictions, and the
    generator after it has been consumed. *)
Variable model_predict : model → generator → Z → list pred * generator.
(** [predict_g.get_targets()] and [predict_g.get_x()] *)
Variable get_targets : generator → list target.
Variable get_x : generator → X.
(** [model._is_compiled] *)
Variable is_compiled : model → bool.
(** [misc.metrics.accuracy], [misc.metrics.loss] and
    [misc.metrics.compute_roc(...).roc_auc] *)
Variable accuracy : list target → list pred → metric.
Variable loss : list target → list pred → metric.
Variable compute_roc_auc : list target → list pred → option classes → metric.

Definition predict (m : model) (test_generator : generator) (roc_auc : bool)
    (classes_ : option classes) (return_data store_x nonverbose : bool)
    : prediction metric target pred X :=
  let predict_g := PredictGenerator test_generator store_x in
  let '(preds, predict_g) :=
    model_predict m predict_g (if nonverbose then 0 else 1) in
  let y := Py.slice (get_targets predict_g) 0 (Py.len preds) in
  let '(result, names) :=
    if bool_decide (Py.len y > 0) then
      let acc := accuracy y preds in
      let result := [acc] in
      let names := ["test_accuracy"] in
      let '(result, names) :=
        if is_compiled m
        then (result ++ [loss y preds], names ++ ["test_loss"])
        else (result, names) in
      if roc_auc
      then (result ++ [compute_roc_auc y preds classes_], names ++ ["roc_auc"])
      else (result, names)
    else ([], []) in
  Prediction result names
    (if return_data then Some (y, preds) else None)
    (if return_data && store_x then Some (get_x predict_g) else None).

End Predict.

(** ** Class weights: [get_classes_and_weights_multi_tax] *)

(** [a / b] on integers: the quotient as a rational (Python rounds it
    to the nearest double), [ZeroDivisionError] when [b] is zero. *)
Definition truediv (a b : Z) : option Q :=
  if bool_decide (b = 0) then None else Some (inject_Z a / inject_Z b)%Q.

(** The sum of the counts held in a dictionary. *)
Definition dict_sum (d : gmap string Z) : Z :=
  map_fold (λ _ value acc, value + acc) 0 d.

(** The classes of a tally whose count is below the threshold, and
    the classes that stay. *)
Definition low_classes (unknown_thr : Z) (d : gmap string Z) : gmap string Z :=
  filter (λ kv : string * Z, kv.2 < unknown_thr) d.

Definition kept_classes (unknown_thr : Z) (d : gmap string Z) : gmap string Z :=
  filter (λ kv : string * Z, ¬ kv.2 < unknown_thr) d.

(** The count of the ['unknown'] bucket: the counts below the threshold
    and the count of a kept class that is itself named ['unknown']. *)
Definition unknown_count (unknown_thr : Z) (d : gmap string Z) : Z :=
  dict_sum (low_classes unknown_thr d)
  + default 0 (kept_classes unknown_thr d !! "unknown").

(** How many names of a list are [key]. *)
Definition occurrences (key : string) (names : list string) : Z :=
  Py.len (filter (λ name, name = key) names).

Section ClassWeights.

Context {taxid : Type}.

(** [TaxidLineage().get_ranks(taxid, ranks=[...])[rank][1]]: the name
    that the lineage gives [taxid] at [rank].  The lineage lookup is
    defined outside this module. *)
Variable rank_name : taxid → string → string.

(** [n = d.get(key, 0) + 1; d.update({key: n})] *)
Definition count_one (d : gmap string Z) (key : string) : gmap string Z :=
  <[key := default 0 (d !! key) + 1]> d.

(** The first loop: one pass over [species_list], one count per rank. *)
Definition tally_ranks (species_list : list taxid)
    : gmap string Z * gmap string Z * gmap string Z :=
  foldl (λ '(super_king_dict, king_dict, family_dict) taxid,
           (count_one super_king_dict (rank_name taxid "superkingdom"),
            count_one king_dict (rank_name taxid "kingdom"),
            count_one family_dict (rank_name taxid "family")))
        (∅, ∅, ∅) species_list.

(** The names that the taxa of a list have at one rank. *)
Definition rank_names (rank : string) (species_list : list taxid) : list string :=
  (λ taxid, rank_name taxid rank) <$> species_list.

(** One iteration of [for key, value in dict_.items()]; the state is
    [(unknown, classes_tax_i, weight_classes_tax_i)].  [pop] raises
    [KeyError] on a key that is not there. *)
Definition collapse_step (num_entries unknown_thr : Z) (key : string) (value : Z)
    (st : option (Z * gmap string Z * gmap string Q))
    : option (Z * gmap string Z * gmap string Q) :=
  '(unknown, classes_tax_i, weight_classes_tax_i) ← st;
  if bool_decide (value < unknown_thr) then
    _ ← classes_tax_i !! key;
    Some (unknown + value, delete key classes_tax_i, weight_classes_tax_i)
  else
    weight ← truediv num_entries value;
    Some (unknown, classes_tax_i, <[key := weight]> weight_classes_tax_i).

(** The body of the second loop for one rank.  [map_fold] visits the
    items in the order of the map data structure; the state after the
    loop is the same for every order of the items. *)
Definition rank_classes_and_weights (num_entries unknown_thr : Z)
    (dict_ : gmap string Z) : option (gmap string Z * gmap string Q) :=
  '(unknown, classes_tax_i, weight_classes_tax_i) ←
    map_fold (collapse_step num_entries unknown_thr) (Some (0, dict_, ∅)) dict_;
  let unknown := unknown + default 0 (classes_tax_i !! "unknown") in
  let classes_tax_i := <["unknown" := unknown]> classes_tax_i in
  weight ← (if bool_decide (unknown ≠ 0) then truediv num_entries unknown
            else Some 1%Q);
  Some (classes_tax_i, <["unknown" := weight]> weight_classes_tax_i).

Definition rank_keys : list string := ["superkingdom"; "kingdom"; "family"].

Definition get_classes_and_weights_multi_tax (species_list : list taxid)
    (unknown_thr : Z)
    : option (gmap string (gmap string Z) * gmap string (gmap string Q)) :=
  let num_entries := Py.len species_list in
  let '(super_king_dict, king_dict, family_dict) := tally_ranks species_list in
  foldl (λ acc '(index, dict_),
           '(classes, weight_classes) ← acc;
           '(classes_tax_i, weight_classes_tax_i) ←
             rank_classes_and_weights num_entries unknown_thr dict_;
           rank ← rank_keys !! index;
           Some (<[rank := classes_tax_i]> classes,
                 <[rank := weight_classes_tax_i]> weight_classes))
        (Some (∅, ∅))
        (imap pair [super_king_dict; king_dict; family_dict]).

End ClassWeights.

(** ** Batching: [process_bert_tokens_batch] *)

(** A batch is a list of [seq2tokens] results.  [np.array] of a list of
    rows is the list of the rows; it is a two-dimensional array when
    the rows have one length. *)
Definition process_bert_tokens_batch (batch_x : list (list Z * list Z))
    : list (list Z) * list (list Z) :=
  (fst <$> batch_x, snd <$> batch_x).

(** ** One classification head: [load_bert], [generate_bert_with_pretrained] *)

Section SingleHead.

(** [keras.models.load_model(path, compile=compile_, custom_objects=...)];
    [None] when loading raises. *)
Variable load_model : string → bool → option loaded_model.

(** The name that keras gives a layer built without a [name]. *)
Variable dense_name : string.

Definition load_bert (bert_path : string) (compile_ : bool) : option loaded_model :=
  load_model bert_path compile_.

Definition generate_bert_with_pretrained (pretrained_path : string)
    (nr_classes : Z) : option keras_model :=
  model ← load_bert pretrained_path false;
  let inputs := Py.slice (model_inputs model) 0 2 in
  nsp_dense_layer ← model_layers model !! "NSP-Dense";
  let softmax_layer := Dense nr_classes "softmax" dense_name nsp_dense_layer in
  Some (KerasModel inputs softmax_layer).

End SingleHead.

(** ** The place of a word in the enumeration of [product] *)

(** The position of a symbol in the alphabet. *)
Definition symbol_index {A} `{EqDecision A} (alph : list A) (c : A) : nat :=
  default 0%nat (fst <$> list_find (λ a, a = c) alph).

(** The value of a word read as a number in base [len(alph)], the
    first symbol being the most significant digit. *)
Fixpoint word_rank {A} `{EqDecision A} (alph w : list A) : nat :=
  match w with
  | [] => 0
  | c :: w' => symbol_index alph c * length alph ^ length w' + word_rank alph w'
  end.

(** ** Sample inputs for the examples *)

(** The words [seq[i:i+k]] for [i = 0, stride, 2*stride, ...] while a
    whole word fits: a plain k-mer splitter to run [seq2tokens] on. *)
Fixpoint chunks (fuel k stride : nat) (s : string) : list string :=
  match fuel with
  | O => []
  | S fuel' =>
      if (k <=? String.length s)%nat
      then String.substring 0 k s
             :: chunks fuel' k stride
                  (String.substring stride (String.length s - stride) s)
      else []
  end.

Definition sample_seq2kmers (seq : string) (k stride : Z) (pad : bool) : list string :=
  chunks (String.length seq) (Z.to_nat k) (Z.to_nat stride) seq.

(** The special tokens of keras_bert: padding, unknown, class,
    separator and mask. *)
Definition sample_base_dict : gmap string Z :=
  <["[MASK]" := 4]> (<["[SEP]" := 3]> (<["[CLS]" := 2]>
    (<["[UNK]" := 1]> (<["" := 0]> ∅)))).

(** [get_token_dict('ACGT', 3)] over these special tokens. *)
Definition sample_token_dict : gmap string Z :=
  default ∅ (get_token_dict sample_base_dict "ACGT" 3).

Definition sample_seq : string := "ACGTTAGGCATCAAT".

(** A checkpoint with two token inputs, a third input, and the trunk
    layer ['NSP-Dense']. *)
Definition sample_checkpoint : loaded_model :=
  LoadedModel
    [Pretrained "Input-Token" 512; Pretrained "Input-Segment" 512;
     Pretrained "Input-Masked" 512]
    (<["NSP-Dense" := Pretrained "NSP-Dense" 768]> ∅).

Definition sample_load_model (path : string) : option loaded_model :=
  if bool_decide (path = "bert.h5") then Some sample_checkpoint else None.

(** Three taxa and their superkingdom, kingdom and family names; a rank
    that the lineage does not name reads ['unknown']. *)
Definition sample_rank_name (taxid : nat) (rank : string) : string :=
  match taxid with
  | 1%nat =>
      if bool_decide (rank = "superkingdom") then "Bacteria"
      else if bool_decide (rank = "kingdom") then "unknown"
      else "Bacillaceae"
  | 2%nat =>
      if bool_decide (rank = "superkingdom") then "Bacteria"
      else if bool_decide (rank = "kingdom") then "unknown"
      else "Bacillaceae"
  | _ =>
      if bool_decide (rank = "superkingdom") then "Eukaryota"
      else if bool_decide (rank = "kingdom") then "Fungi"
      else "unknown"
  end.

(** * Properties *)

(** ** Slices and random draws *)

Module PyFacts.

Lemma slice_bound_range n i : 0 ≤ n → 0 ≤ Py.slice_bound n i ≤ n.
Proof. unfold Py.slice_bound. case_bool_decide; lia. Qed.

Lemma slice_length {A} (l : list A) start stop :
  Py.len (Py.slice l start stop) =
    Z.max 0 (Py.slice_bound (Py.len l) stop - Py.slice_bound (Py.len l) start).
Proof.
  unfold Py.slice, Py.len.
  pose proof (slice_bound_range (Z.of_nat (length l)) start ltac:(lia)).
  pose proof (slice_bound_range (Z.of_nat (length l)) stop ltac:(lia)).
  rewrite length_take, length_drop. lia.
Qed.

Lemma slice_nonneg {A} (l : list A) start stop :
  0 ≤ start → 0 ≤ stop →
  Py.slice l start stop = take (Z.to_nat (stop - start)) (drop (Z.to_nat start) l).
Proof.
  intros Hs He. unfold Py.slice, Py.slice_bound.
  rewrite !bool_decide_eq_false_2 by lia.
  set (n := Z.of_nat (length l)).
  destruct (decide (start ≤ n)) as [Hsn|Hsn].
  - rewrite (Z.min_l start) by done.
    destruct (decide (stop ≤ n)) as [Hen|Hen].
    + by rewrite Z.min_l.
    + rewrite Z.min_r by lia.
      rewrite !take_ge; [done| |]; rewrite length_drop; lia.
  - rewrite (Z.min_r start) by lia.
    rewrite !drop_ge by lia. by rewrite !take_nil.
Qed.

Lemma slice_prefix {A} (l : list A) stop :
  0 ≤ stop → Py.slice l 0 stop = take (Z.to_nat stop) l.
Proof.
  intros Hs. rewrite slice_nonneg by lia.
  change (Z.to_nat 0) with 0%nat. by rewrite drop_0, Z.sub_0_r.
Qed.

Lemma randint_range g a b : a ≤ b → a ≤ Py.randint g a b ≤ b.
Proof.
  intros Hab. unfold Py.randint.
  pose proof (Z.mod_pos_bound (Z.of_nat g) (b - a + 1) ltac:(lia)). lia.
Qed.

(** Every integer of the range is the outcome of some draw. *)
Lemma randint_onto a b x : a ≤ x ≤ b → ∃ g, Py.randint g a b = x.
Proof.
  intros Hx. exists (Z.to_nat (x - a)). unfold Py.randint.
  rewrite Z2Nat.id by lia. rewrite Z.mod_small by lia. lia.
Qed.

Lemma random_choice_is_Some g l : l ≠ [] → is_Some (Py.random_choice g l).
Proof.
  intros Hl. unfold Py.random_choice. apply lookup_lt_is_Some.
  apply Nat.mod_upper_bound. by destruct l.
Qed.

Lemma random_choice_elem g l x : Py.random_choice g l = Some x → x ∈ l.
Proof. unfold Py.random_choice. apply list_elem_of_lookup_2. Qed.

End PyFacts.

(** ** Sequence encoding *)

Section Seq2TokensFacts.

Variable seq2kmers : string → Z → Z → bool → list string.

Lemma encode_word_unk token_dict unk word :
  token_dict !! "[UNK]" = Some unk →
  encode_word token_dict word = Some (default unk (token_dict !! word)).
Proof. intros Hunk. unfold encode_word. by destruct (token_dict !! word). Qed.

Lemma encode_words_unk token_dict unk words :
  token_dict !! "[UNK]" = Some unk →
  mapM (encode_word token_dict) words
  = Some ((λ w, default unk (token_dict !! w)) <$> words).
Proof.
  intros Hunk. apply mapM_Some. induction words as [|w ws IH]; simpl.
  - constructor.
  - constructor; [by apply encode_word_unk | done].
Qed.

Lemma seq2tokens_seq_length_is_Some rnd seq_length max_length seq_len_like :
  seq_len_like ≠ Some [] →
  is_Some (seq2tokens_seq_length rnd seq_length max_length seq_len_like).
Proof.
  intros Hne. unfold seq2tokens_seq_length.
  destruct seq_len_like as [lens|]; [|by eexists].
  destruct (PyFacts.random_choice_is_Some (Py.choice_draw rnd) lens) as [c Hc].
  { congruence. }
  rewrite Hc. by eexists.
Qed.

(** With the three special tokens present, a run is determined by the
    selected window. *)
Lemma seq2tokens_eval rnd seq token_dict seq_length max_length k stride window
    seq_len_like cls unk pad L :
  token_dict !! "[CLS]" = Some cls →
  token_dict !! "[UNK]" = Some unk →
  token_dict !! "" = Some pad →
  seq2tokens_seq_length rnd seq_length max_length seq_len_like = Some L →
  let M := seq2tokens_max_length seq_length max_length in
  let encoded :=
    cls :: ((λ w, default unk (token_dict !! w))
              <$> seq2tokens_window rnd (seq2kmers seq k stride true) L window) in
  seq2tokens seq2kmers rnd seq token_dict seq_length max_length k stride window
    seq_len_like
  = Some (if bool_decide (Py.len encoded < M)
          then encoded ++ Py.repeat pad (M - Py.len encoded)
          else Py.slice encoded 0 M,
          Py.repeat 0 M).
Proof.
  intros Hcls Hunk Hpad HL M encoded. unfold seq2tokens.
  rewrite HL; simpl. rewrite Hcls; simpl.
  rewrite (encode_words_unk _ unk) by done. simpl.
  unfold seq2tokens_fit. fold M. fold encoded.
  case_bool_decide; [rewrite Hpad|]; done.
Qed.

Lemma fit_length (encoded : list Z) pad M :
  0 ≤ M →
  Py.len (if bool_decide (Py.len encoded < M)
          then encoded ++ Py.repeat pad (M - Py.len encoded)
          else Py.slice encoded 0 M) = M.
Proof.
  intros HM. case_bool_decide as Hlt.
  - unfold Py.len, Py.repeat in *. rewrite length_app, length_replicate. lia.
  - rewrite PyFacts.slice_prefix by done. unfold Py.len in *.
    rewrite length_take. lia.
Qed.

Lemma fit_head (cls : Z) body pad M :
  1 ≤ M →
  head (if bool_decide (Py.len (cls :: body) < M)
        then (cls :: body) ++ Py.repeat pad (M - Py.len (cls :: body))
        else Py.slice (cls :: body) 0 M) = Some cls.
Proof.
  intros HM. case_bool_decide; [done|].
  rewrite PyFacts.slice_prefix by lia.
  destruct (Z.to_nat M) as [|m] eqn:E; [lia | done].
Qed.

Lemma fit_lookup (encoded : list Z) pad M (i : nat) v :
  encoded !! i = Some v → Z.of_nat i < M →
  (if bool_decide (Py.len encoded < M)
   then encoded ++ Py.repeat pad (M - Py.len encoded)
   else Py.slice encoded 0 M) !! i = Some v.
Proof.
  intros Hv Hi. case_bool_decide.
  - by apply lookup_app_l_Some.
  - rewrite PyFacts.slice_prefix by lia. rewrite lookup_take_lt by lia. done.
Qed.

(** The slice bounds of a window with a positive length. *)
Lemma seq2tokens_bounds_range rnd kmers L window :
  let '(start, end_) := seq2tokens_bounds rnd kmers L window in
  0 ≤ start ≤ Z.max (Py.len kmers - L - 1) 0
  ∧ end_ = start + (if window then L - 1 else L)
  ∧ (window = false → start = 0).
Proof.
  unfold seq2tokens_bounds. destruct window.
  - split; [|split; [lia | done]].
    apply PyFacts.randint_range. lia.
  - split; [lia | split; [lia | done]].
Qed.

(** C1, as the code has it.  Let [M] be [max_length], or [seq_length]
    when [max_length] is [None].  With ['[CLS]'], ['[UNK]'] and ['']
    in the dictionary, [M >= 0] and, when [seq_len_like] is given, at
    least one length to sample, [seq2tokens] returns two arrays of
    length [M]: the encoded window behind ['[CLS]'] padded with
    [token_dict['']] when it is shorter than [M], cut to its first [M]
    entries otherwise; and [M] segments.  The window is taken for
    [seq_length], or, when [seq_len_like] is given, for one of its
    entries capped by [M]. *)
Theorem seq2tokens_fixed_width rnd seq token_dict seq_length max_length k stride
    window seq_len_like cls unk pad M :
  M = match max_length with Some m => m | None => seq_length end →
  token_dict !! "[CLS]" = Some cls →
  token_dict !! "[UNK]" = Some unk →
  token_dict !! "" = Some pad →
  seq_len_like ≠ Some [] →
  0 ≤ M →
  ∃ L indices segments,
    match seq_len_like with
    | None => L = seq_length
    | Some lens => ∃ c, c ∈ lens ∧ L = Z.min M c
    end
    ∧ seq2tokens seq2kmers rnd seq token_dict seq_length max_length k stride
        window seq_len_like = Some (indices, segments)
    ∧ Py.len indices = M
    ∧ Py.len segments = M
    ∧ let encoded :=
        cls :: ((λ w, default unk (token_dict !! w))
                  <$> seq2tokens_window rnd (seq2kmers seq k stride true) L window) in
      (Py.len encoded < M →
         indices = encoded ++ replicate (Z.to_nat (M - Py.len encoded)) pad)
      ∧ (M ≤ Py.len encoded → indices = take (Z.to_nat M) encoded).
Proof.
  intros HMdef Hcls Hunk Hpad Hlike HM.
  assert (HM' : M = seq2tokens_max_length seq_length max_length).
  { rewrite HMdef. by destruct max_length. }
  clear HMdef. subst M.
  destruct (seq2tokens_seq_length_is_Some rnd seq_length max_length seq_len_like Hlike)
    as [L HL].
  eexists L, _, _. split.
  { unfold seq2tokens_seq_length in HL. destruct seq_len_like as [lens|].
    - destruct (Py.random_choice (Py.choice_draw rnd) lens) as [c|] eqn:Hc; [|done].
      injection HL as <-. exists c. split; [|done].
      by eapply PyFacts.random_choice_elem.
    - by injection HL as <-. }
  split; [by apply (seq2tokens_eval _ _ _ _ _ _ _ _ _ cls unk pad L)|].
  split; [by apply fit_length|].
  split. { unfold Py.len, Py.repeat. rewrite length_replicate. lia. }
  intros encoded. subst encoded. split; intros Hlen.
  - by rewrite bool_decide_eq_true_2.
  - rewrite bool_decide_eq_false_2 by lia. by apply PyFacts.slice_prefix.
Qed.

(** C3. With the special tokens present, no word makes the encoding
    fail: a word of the vocabulary is mapped to its own index, any
    other word to the index of ['[UNK]'], and that is the entry which
    [seq2tokens] returns for each word of the selected window that
    fits below [max_length]. *)
Theorem seq2tokens_unknown_fallback rnd seq token_dict seq_length max_length k
    stride window seq_len_like cls unk pad :
  token_dict !! "[CLS]" = Some cls →
  token_dict !! "[UNK]" = Some unk →
  token_dict !! "" = Some pad →
  seq_len_like ≠ Some [] →
  (∀ word,
     encode_word token_dict word
     = Some (match token_dict !! word with Some i => i | None => unk end))
  ∧ ∃ L indices segments,
      seq2tokens_seq_length rnd seq_length max_length seq_len_like = Some L
      ∧ seq2tokens seq2kmers rnd seq token_dict seq_length max_length k stride
          window seq_len_like = Some (indices, segments)
      ∧ ∀ (i : nat) word,
          seq2tokens_window rnd (seq2kmers seq k stride true) L window !! i
          = Some word →
          Z.of_nat (S i) < seq2tokens_max_length seq_length max_length →
          indices !! S i
          = Some (match token_dict !! word with Some n => n | None => unk end).
Proof.
  intros Hcls Hunk Hpad Hlike. split.
  { intros word. unfold encode_word. by destruct (token_dict !! word). }
  destruct (seq2tokens_seq_length_is_Some rnd seq_length max_length seq_len_like Hlike)
    as [L HL].
  eexists L, _, _. split; [done|].
  split; [by apply (seq2tokens_eval _ _ _ _ _ _ _ _ _ cls unk pad L)|].
  intros i word Hword Hi. apply fit_lookup; [|done].
  simpl. rewrite list_lookup_fmap, Hword. simpl.
  by destruct (token_dict !! word).
Qed.

(** C10. With the special tokens present and [max_length >= 1], the
    token array that [seq2tokens] returns starts with
    [token_dict['[CLS]']] and every segment is zero. *)
Theorem seq2tokens_cls_first rnd seq token_dict seq_length max_length k stride
    window seq_len_like cls unk pad :
  token_dict !! "[CLS]" = Some cls →
  token_dict !! "[UNK]" = Some unk →
  token_dict !! "" = Some pad →
  seq_len_like ≠ Some [] →
  1 ≤ seq2tokens_max_length seq_length max_length →
  ∃ indices segments,
    seq2tokens seq2kmers rnd seq token_dict seq_length max_length k stride
      window seq_len_like = Some (indices, segments)
    ∧ indices !! 0%nat = Some cls
    ∧ Forall (λ s, s = 0) segments.
Proof.
  intros Hcls Hunk Hpad Hlike HM.
  destruct (seq2tokens_seq_length_is_Some rnd seq_length max_length seq_len_like Hlike)
    as [L HL].
  eexists _, _.
  split; [by apply (seq2tokens_eval _ _ _ _ _ _ _ _ _ cls unk pad L)|].
  split.
  - rewrite <- head_lookup. by apply fit_head.
  - unfold Py.repeat. apply Forall_replicate. done.
Qed.

(** C2, as the code has it.  For [seq_length >= 1] the words that are
    encoded form one contiguous window of the k-mer list, clamped at
    its end.  With [window=False] it starts at 0 and holds
    [min(seq_length, len)] words.  With [window=True] it starts at a
    drawn position of [0 .. max(len - seq_length - 1, 0)], each of which
    some draw selects, and holds [min(seq_length - 1, len)] words.  So
    the window of [window=True] is one word shorter than that of
    [window=False] when the list has at least [seq_length] words, and
    both are the whole list when it has fewer. *)
Theorem seq2tokens_window_extent rnd (kmers : list string) L window :
  1 ≤ L →
  (∃ start,
     0 ≤ start ≤ Z.max (Py.len kmers - L - 1) 0
     ∧ (window = false → start = 0)
     ∧ seq2tokens_window rnd kmers L window
       = take (Z.to_nat (if window then L - 1 else L)) (drop (Z.to_nat start) kmers)
     ∧ Py.len (seq2tokens_window rnd kmers L window)
       = Z.min (if window then L - 1 else L) (Py.len kmers))
  ∧ (∀ s, 0 ≤ s ≤ Z.max (Py.len kmers - L - 1) 0 →
       ∃ rnd', seq2tokens_window rnd' kmers L true
               = take (Z.to_nat (L - 1)) (drop (Z.to_nat s) kmers))
  ∧ ∀ rnd1 rnd2,
      (L ≤ Py.len kmers →
         Py.len (seq2tokens_window rnd1 kmers L true) = L - 1
         ∧ Py.len (seq2tokens_window rnd2 kmers L false) = L)
      ∧ (Py.len kmers < L →
           seq2tokens_window rnd1 kmers L true = kmers
           ∧ seq2tokens_window rnd2 kmers L false = kmers).
Proof.
  intros HL.
  assert (Hshape : ∀ r w, ∃ start,
    0 ≤ start ≤ Z.max (Py.len kmers - L - 1) 0
    ∧ (w = false → start = 0)
    ∧ seq2tokens_window r kmers L w
      = take (Z.to_nat (if w then L - 1 else L)) (drop (Z.to_nat start) kmers)
    ∧ Py.len (seq2tokens_window r kmers L w)
      = Z.min (if w then L - 1 else L) (Py.len kmers)).
  { intros r w. pose proof (seq2tokens_bounds_range r kmers L w) as Hb.
    unfold seq2tokens_window.
    destruct (seq2tokens_bounds r kmers L w) as [start end_].
    destruct Hb as (Hstart & -> & H0).
    exists start. split; [done|]. split; [done|].
    assert (Hw : Py.slice kmers start (start + (if w then L - 1 else L))
                 = take (Z.to_nat (if w then L - 1 else L))
                     (drop (Z.to_nat start) kmers)).
    { rewrite PyFacts.slice_nonneg by (destruct w; lia).
      do 2 f_equal. lia. }
    split; [done|]. rewrite Hw. unfold Py.len in *.
    rewrite length_take, length_drop. destruct w.
    + lia.
    + rewrite (H0 eq_refl). lia. }
  split; [apply Hshape|]. split.
  - intros s Hs.
    destruct (PyFacts.randint_onto 0 (Z.max (Py.len kmers - L - 1) 0) s Hs) as [g Hg].
    exists (Py.Draws 0 g). unfold seq2tokens_window, seq2tokens_bounds. simpl.
    rewrite Hg. rewrite PyFacts.slice_nonneg by lia. do 2 f_equal. lia.
  - intros rnd1 rnd2.
    destruct (Hshape rnd1 true) as (s1 & Hs1 & _ & Hw1 & Hl1).
    destruct (Hshape rnd2 false) as (s2 & _ & Hs2 & Hw2 & Hl2).
    split; intros Hlen.
    + rewrite Hl1, Hl2. lia.
    + rewrite Hw1, Hw2, (Hs2 eq_refl). unfold Py.len in *.
      replace (Z.to_nat s1) with 0%nat by lia. change (Z.to_nat 0) with 0%nat.
      rewrite !drop_0, !take_ge by lia. done.
Qed.

End Seq2TokensFacts.

Lemma seq2tokens_fixed_width_witness :
  3 = match None with Some m => m | None => 3 end
  ∧ sample_token_dict !! "[CLS]" = Some 2
  ∧ sample_token_dict !! "[UNK]" = Some 1
  ∧ sample_token_dict !! "" = Some 0
  ∧ (None : option (list Z)) ≠ Some []
  ∧ 0 ≤ 3
  ∧ ∃ indices segments,
      seq2tokens sample_seq2kmers (Py.Draws 0 1) sample_seq sample_token_dict
        3 None 3 3 true None = Some (indices, segments)
      ∧ Py.len indices = 3 ∧ Py.len segments = 3.
Proof.
  assert (H0 : 3 = match (None : option Z) with Some m => m | None => 3 end)
    by reflexivity.
  assert (H1 : sample_token_dict !! "[CLS]" = Some 2) by (vm_compute; reflexivity).
  assert (H2 : sample_token_dict !! "[UNK]" = Some 1) by (vm_compute; reflexivity).
  assert (H3 : sample_token_dict !! "" = Some 0) by (vm_compute; reflexivity).
  assert (H4 : (None : option (list Z)) ≠ Some []) by discriminate.
  assert (H5 : 0 ≤ 3) by lia.
  split; [exact H0|]. split; [exact H1|]. split; [exact H2|]. split; [exact H3|].
  split; [exact H4|]. split; [exact H5|].
  destruct (seq2tokens_fixed_width sample_seq2kmers (Py.Draws 0 1) sample_seq
              sample_token_dict 3 None 3 3 true None 2 1 0 3 H0 H1 H2 H3 H4 H5)
    as (L & indices & segments & _ & Hrun & Hi & Hs & _).
  exists indices, segments. split; [exact Hrun|]. split; [exact Hi | exact Hs].
Defined.

(** C1 as stated fails outside these conditions, with the three special
    tokens in the dictionary.  With [max_length = -1] the arrays have
    two entries and none; with [seq_length = -1] and no [max_length]
    they have four and none; with an empty [seq_len_like] nothing is
    returned. *)
Lemma seq2tokens_width_outside_conditions :
  sample_token_dict !! "[CLS]" = Some 2
  ∧ sample_token_dict !! "[UNK]" = Some 1
  ∧ sample_token_dict !! "" = Some 0
  ∧ seq2tokens sample_seq2kmers (Py.Draws 0 0) sample_seq sample_token_dict
      3 (Some (-1)) 3 3 true None = Some ([2; 11], [])
  ∧ Py.len [2; 11] ≠ -1
  ∧ Py.len ([] : list Z) ≠ -1
  ∧ seq2tokens sample_seq2kmers (Py.Draws 0 0) sample_seq sample_token_dict
      (-1) None 3 3 false None = Some ([2; 11; 65; 46], [])
  ∧ Py.len [2; 11; 65; 46] ≠ -1
  ∧ seq2tokens sample_seq2kmers (Py.Draws 0 0) sample_seq sample_token_dict
      3 None 3 3 true (Some []) = None.
Proof. vm_compute. repeat split; discriminate. Qed.

(** Outside these conditions: a negative [max_length] is taken as a
    slice bound counted from the end and as an empty range, and an empty
    [seq_len_like] leaves nothing to sample. *)
Example seq2tokens_negative_max_length :
  seq2tokens sample_seq2kmers (Py.Draws 0 0) sample_seq sample_token_dict
    3 (Some (-1)) 3 3 true None = Some ([2; 11], []).
Proof. vm_compute. reflexivity. Qed.

Example seq2tokens_empty_seq_len_like :
  seq2tokens sample_seq2kmers (Py.Draws 0 0) sample_seq sample_token_dict
    3 None 3 3 true (Some []) = None.
Proof. vm_compute. reflexivity. Qed.

Lemma seq2tokens_unknown_fallback_witness :
  sample_token_dict !! "[CLS]" = Some 2
  ∧ sample_token_dict !! "[UNK]" = Some 1
  ∧ sample_token_dict !! "" = Some 0
  ∧ encode_word sample_token_dict "NNN" = Some 1
  ∧ ∃ indices segments,
      seq2tokens sample_seq2kmers (Py.Draws 0 0) "ACGNNNTTT" sample_token_dict
        3 (Some 4) 3 3 false None = Some (indices, segments)
      ∧ indices !! 1%nat = Some 11
      ∧ indices !! 2%nat = Some 1.
Proof.
  assert (H1 : sample_token_dict !! "[CLS]" = Some 2) by (vm_compute; reflexivity).
  assert (H2 : sample_token_dict !! "[UNK]" = Some 1) by (vm_compute; reflexivity).
  assert (H3 : sample_token_dict !! "" = Some 0) by (vm_compute; reflexivity).
  split; [exact H1|]. split; [exact H2|]. split; [exact H3|].
  destruct (seq2tokens_unknown_fallback sample_seq2kmers (Py.Draws 0 0) "ACGNNNTTT"
              sample_token_dict 3 (Some 4) 3 3 false None 2 1 0 H1 H2 H3)
    as [Henc (L & indices & segments & HL & Hrun & Hwords)]; [discriminate|].
  split.
  - rewrite (Henc "NNN"). vm_compute. reflexivity.
  - injection HL as <-. exists indices, segments. split; [exact Hrun|]. split.
    + rewrite (Hwords 0%nat "ACG"); [vm_compute; reflexivity.. | ].
      unfold seq2tokens_max_length; simpl; lia.
    + rewrite (Hwords 1%nat "NNN"); [vm_compute; reflexivity.. | ].
      unfold seq2tokens_max_length; simpl; lia.
Defined.

Lemma seq2tokens_cls_first_witness :
  sample_token_dict !! "[CLS]" = Some 2
  ∧ sample_token_dict !! "[UNK]" = Some 1
  ∧ sample_token_dict !! "" = Some 0
  ∧ 1 ≤ seq2tokens_max_length 3 None
  ∧ ∃ indices segments,
      seq2tokens sample_seq2kmers (Py.Draws 0 0) sample_seq sample_token_dict
        3 None 3 3 true None = Some (indices, segments)
      ∧ indices !! 0%nat = Some 2
      ∧ Forall (λ s, s = 0) segments.
Proof.
  assert (H1 : sample_token_dict !! "[CLS]" = Some 2) by (vm_compute; reflexivity).
  assert (H2 : sample_token_dict !! "[UNK]" = Some 1) by (vm_compute; reflexivity).
  assert (H3 : sample_token_dict !! "" = Some 0) by (vm_compute; reflexivity).
  assert (H4 : 1 ≤ seq2tokens_max_length 3 None)
    by (unfold seq2tokens_max_length; simpl; lia).
  split; [exact H1|]. split; [exact H2|]. split; [exact H3|]. split; [exact H4|].
  apply (seq2tokens_cls_first sample_seq2kmers (Py.Draws 0 0) sample_seq
           sample_token_dict 3 None 3 3 true None 2 1 0 H1 H2 H3);
    [discriminate | exact H4].
Defined.

Lemma seq2tokens_window_extent_witness :
  1 ≤ 3
  ∧ Py.len (seq2tokens_window (Py.Draws 0 1) (sample_seq2kmers sample_seq 3 3 true) 3 true)
    = Z.min (3 - 1) (Py.len (sample_seq2kmers sample_seq 3 3 true)).
Proof.
  assert (H : 1 ≤ 3) by lia. split; [exact H|].
  destruct (seq2tokens_window_extent (Py.Draws 0 1)
              (sample_seq2kmers sample_seq 3 3 true) 3 true H)
    as [(start & _ & _ & _ & Hlen) _].
  exact Hlen.
Defined.

(** C2 as stated fails on a sequence of five 3-mers with
    [seq_length = 3]: the window of [window=True] holds two words, not
    three, whatever the start, while that of [window=False] holds
    three. *)
Lemma seq2tokens_window_length_differs :
  Py.len (sample_seq2kmers sample_seq 3 3 true) = 5
  ∧ seq2tokens_window (Py.Draws 0 0) (sample_seq2kmers sample_seq 3 3 true) 3 true
    = ["ACG"; "TTA"]
  ∧ seq2tokens_window (Py.Draws 0 1) (sample_seq2kmers sample_seq 3 3 true) 3 true
    = ["TTA"; "GGC"]
  ∧ seq2tokens_window (Py.Draws 0 0) (sample_seq2kmers sample_seq 3 3 true) 3 false
    = ["ACG"; "TTA"; "GGC"]
  ∧ Py.len (seq2tokens_window (Py.Draws 0 0)
              (sample_seq2kmers sample_seq 3 3 true) 3 true) ≠ 3
  ∧ Py.len (seq2tokens_window (Py.Draws 0 0)
              (sample_seq2kmers sample_seq 3 3 true) 3 true)
    ≠ Py.len (seq2tokens_window (Py.Draws 0 0)
                (sample_seq2kmers sample_seq 3 3 true) 3 false)
  ∧ seq2tokens sample_seq2kmers (Py.Draws 0 0) sample_seq sample_token_dict
      3 (Some 6) 3 3 true None
    = Some ([2; 11; 65; 0; 0; 0], [0; 0; 0; 0; 0; 0])
  ∧ seq2tokens sample_seq2kmers (Py.Draws 0 0) sample_seq sample_token_dict
      3 (Some 6) 3 3 false None
    = Some ([2; 11; 65; 46; 0; 0], [0; 0; 0; 0; 0; 0]).
Proof. vm_compute. repeat split; discriminate. Qed.

(** ** Vocabulary construction *)

Section ProductFacts.

Context {A : Type}.
Implicit Types (alph l : list A) (k : nat).

Lemma elem_of_product alph k l :
  l ∈ product alph k ↔ length l = k ∧ Forall (λ c, c ∈ alph) l.
Proof.
  revert l. induction k as [|k IH]; intros l; simpl.
  - rewrite list_elem_of_singleton. split.
    + intros ->. by split.
    + intros [Hlen _]. by destruct l.
  - rewrite list_elem_of_bind. split.
    + intros (c & Hl & Hc). apply list_elem_of_fmap in Hl as (l' & -> & Hl').
      apply IH in Hl' as [Hlen Hall]. simpl. split; [by rewrite Hlen|].
      by constructor.
    + intros [Hlen Hall]. destruct l as [|c l']; [done|].
      apply Forall_cons in Hall as [Hc Hall]. exists c. split; [|done].
      apply list_elem_of_fmap. exists l'. split; [done|].
      apply IH. split; [by injection Hlen | done].
Qed.

Lemma NoDup_product alph k : NoDup alph → NoDup (product alph k).
Proof.
  intros Halph. induction k as [|k IH]; simpl.
  - apply NoDup_singleton.
  - apply NoDup_bind; [| |done].
    + intros c1 c2 l _ _ H1 H2.
      apply list_elem_of_fmap in H1 as (l1 & -> & _).
      apply list_elem_of_fmap in H2 as (l2 & Heq & _). by injection Heq.
    + intros c _. apply NoDup_fmap_2_strong; [|done].
      intros l1 l2 _ _ Heq. by injection Heq.
Qed.

End ProductFacts.

Lemma string_length_chars (s : string) :
  String.length s = length (String.list_ascii_of_string s).
Proof. induction s as [|c s IH]; simpl; [done | by rewrite IH]. Qed.

Lemma elem_of_kmer_words alph k w : w ∈ kmer_words alph k ↔ is_kmer alph k w.
Proof.
  unfold kmer_words, is_kmer. rewrite list_elem_of_fmap. split.
  - intros (l & -> & Hl). apply elem_of_product in Hl as [Hlen Hall].
    rewrite string_length_chars, String.list_ascii_of_string_of_list_ascii. done.
  - intros [Hlen Hall]. exists (String.list_ascii_of_string w). split.
    + by rewrite String.string_of_list_ascii_of_string.
    + apply elem_of_product. by rewrite <- string_length_chars.
Qed.

Lemma NoDup_kmer_words alph k :
  NoDup (String.list_ascii_of_string alph) → NoDup (kmer_words alph k).
Proof.
  intros Halph. unfold kmer_words. apply NoDup_fmap_2_strong.
  - intros l1 l2 _ _ Heq.
    rewrite <- (String.list_ascii_of_string_of_list_ascii l1), Heq.
    apply String.list_ascii_of_string_of_list_ascii.
  - by apply NoDup_product.
Qed.

(** The keys after a run of insertions. *)
Lemma add_words_is_Some (token_dict : gmap string Z) words w :
  is_Some (foldl add_word token_dict words !! w)
  ↔ is_Some (token_dict !! w) ∨ w ∈ words.
Proof.
  revert token_dict. induction words as [|a words IH]; intros token_dict; simpl.
  - rewrite elem_of_nil. tauto.
  - rewrite IH, elem_of_cons. unfold add_word.
    destruct (decide (a = w)) as [->|Hne].
    + rewrite lookup_insert_eq. split; [auto | intros _; left; by eexists].
    + rewrite lookup_insert_ne by done. split; [tauto|].
      intros [?|[?|?]]; [tauto | congruence | tauto].
Qed.

(** Words outside the inserted list keep their entry. *)
Lemma add_words_other (token_dict : gmap string Z) words w :
  w ∉ words → foldl add_word token_dict words !! w = token_dict !! w.
Proof.
  revert token_dict. induction words as [|a words IH]; intros token_dict Hw; simpl.
  - done.
  - apply not_elem_of_cons in Hw as [Hne Hw]. rewrite IH by done.
    unfold add_word. by rewrite lookup_insert_ne.
Qed.

(** Inserting pairwise distinct words that are all new numbers them
    consecutively from the size of the dictionary. *)
Lemma add_words_fresh (token_dict : gmap string Z) words :
  NoDup words → (∀ w, w ∈ words → token_dict !! w = None) →
  ∀ (n : nat) w, words !! n = Some w →
    foldl add_word token_dict words !! w = Some (Z.of_nat (size token_dict + n)).
Proof.
  revert token_dict.
  induction words as [|a words IH]; intros token_dict Hnd Hnew n w Hn; [done|].
  apply NoDup_cons in Hnd as [Ha Hnd]. simpl.
  assert (Hsize : size (add_word token_dict a) = S (size token_dict)).
  { unfold add_word. apply map_size_insert_None, Hnew. by left. }
  destruct n as [|n]; simpl in Hn.
  - injection Hn as ->. rewrite add_words_other by done.
    unfold add_word. rewrite lookup_insert_eq. do 2 f_equal. lia.
  - rewrite (IH (add_word token_dict a) Hnd) with (n := n); [|  |done].
    + rewrite Hsize. do 2 f_equal. lia.
    + intros w' Hw'. unfold add_word. rewrite lookup_insert_ne.
      * apply Hnew. by right.
      * intros ->. done.
Qed.

Section TokenDictFacts.

Variable base_dict : gmap string Z.

(** C5, as the code has it.  For [k >= 0], an alphabet without repeated
    symbols none of whose k-mers is already a key of the base
    dictionary, and a base dictionary whose indices are distinct and
    below its size, [get_token_dict] returns the base dictionary
    extended with exactly the length-[k] strings over [alph]; the
    [n]-th word of the enumeration gets the size of the dictionary at
    its insertion, [len(base) + n]; all indices are distinct; and the
    result is a function of the arguments. *)
Theorem get_token_dict_fresh alph k :
  0 ≤ k →
  NoDup (String.list_ascii_of_string alph) →
  (∀ w, is_kmer alph (Z.to_nat k) w → base_dict !! w = None) →
  (∀ w i, base_dict !! w = Some i → 0 ≤ i < Z.of_nat (size base_dict)) →
  (∀ w1 w2 i, base_dict !! w1 = Some i → base_dict !! w2 = Some i → w1 = w2) →
  ∃ token_dict,
    get_token_dict base_dict alph k = Some token_dict
    ∧ (∀ token_dict', get_token_dict base_dict alph k = Some token_dict' →
         token_dict' = token_dict)
    ∧ (∀ w, is_Some (token_dict !! w)
            ↔ is_Some (base_dict !! w) ∨ is_kmer alph (Z.to_nat k) w)
    ∧ (∀ w i, base_dict !! w = Some i → token_dict !! w = Some i)
    ∧ (∀ (n : nat) w, kmer_words alph (Z.to_nat k) !! n = Some w →
         token_dict !! w = Some (Z.of_nat (size base_dict + n)))
    ∧ (∀ w1 w2 i, token_dict !! w1 = Some i → token_dict !! w2 = Some i →
         w1 = w2).
Proof.
  intros Hk Halph Hnew Hrange Hinj.
  set (words := kmer_words alph (Z.to_nat k)).
  assert (Hnd : NoDup words) by by apply NoDup_kmer_words.
  assert (Hnew' : ∀ w, w ∈ words → base_dict !! w = None).
  { intros w Hw. by apply Hnew, elem_of_kmer_words. }
  assert (Hrun : get_token_dict base_dict alph k = Some (foldl add_word base_dict words)).
  { unfold get_token_dict. by rewrite bool_decide_eq_false_2 by lia. }
  exists (foldl add_word base_dict words).
  split; [done|]. split; [intros td'; rewrite Hrun; congruence|].
  split. { intros w. rewrite add_words_is_Some. unfold words.
           by rewrite elem_of_kmer_words. }
  assert (Hold : ∀ w i, base_dict !! w = Some i →
                        foldl add_word base_dict words !! w = Some i).
  { intros w i Hw. rewrite add_words_other; [done|].
    intros Hin. apply Hnew' in Hin. congruence. }
  split; [done|].
  pose proof (add_words_fresh base_dict words Hnd Hnew') as Hfresh.
  split; [done|].
  assert (Hcase : ∀ w i, foldl add_word base_dict words !! w = Some i →
            (base_dict !! w = Some i ∧ w ∉ words)
            ∨ (∃ n : nat, words !! n = Some w ∧ i = Z.of_nat (size base_dict + n))).
  { intros w i Hw. destruct (decide (w ∈ words)) as [Hin|Hout].
    - right. apply list_elem_of_lookup in Hin as [n Hn]. exists n. split; [done|].
      rewrite (Hfresh n w Hn) in Hw. congruence.
    - left. by rewrite add_words_other in Hw. }
  intros w1 w2 i H1 H2.
  destruct (Hcase w1 i H1) as [[Hb1 _]|(n1 & Hn1 & ->)];
    destruct (Hcase w2 _ H2) as [[Hb2 _]|(n2 & Hn2 & Heq)].
  - by apply (Hinj w1 w2 i).
  - apply Hrange in Hb1. lia.
  - apply Hrange in Hb2. lia.
  - assert (n1 = n2) as -> by lia. congruence.
Qed.

End TokenDictFacts.

Lemma get_token_dict_fresh_witness :
  0 ≤ 3
  ∧ NoDup (String.list_ascii_of_string "ACGT")
  ∧ ∃ token_dict,
      get_token_dict sample_base_dict "ACGT" 3 = Some token_dict
      ∧ token_dict !! "AAA" = Some 5
      ∧ token_dict !! "TTT" = Some 68.
Proof.
  assert (H0 : 0 ≤ 3) by lia.
  assert (H1 : NoDup (String.list_ascii_of_string "ACGT")).
  { apply (bool_decide_unpack _). vm_compute. exact I. }
  split; [exact H0|]. split; [exact H1|].
  destruct (get_token_dict_fresh sample_base_dict "ACGT" 3 H0 H1)
    as (token_dict & Hrun & _ & _ & _ & Hidx & _).
  - intros w [Hlen _]. unfold sample_base_dict.
    rewrite !lookup_insert_ne, lookup_empty; [done|..];
      intros <-; vm_compute in Hlen; discriminate.
  - intros w i. unfold sample_base_dict.
    rewrite !lookup_insert, lookup_empty.
    repeat case_decide; intros [= <-]; vm_compute; split; congruence.
  - intros w1 w2 i. unfold sample_base_dict.
    rewrite !lookup_insert, !lookup_empty.
    repeat case_decide; intros [= <-]; intros [=]; congruence.
  - exists token_dict. split; [exact Hrun|]. split.
    + apply (Hidx 0%nat). vm_compute. reflexivity.
    + apply (Hidx 63%nat). vm_compute. reflexivity.
Defined.

Example get_token_dict_negative_k :
  get_token_dict sample_base_dict "ACGT" (-1) = None.
Proof. reflexivity. Qed.

(** C5 as stated fails as soon as a word is met that the dictionary
    already holds: its entry is overwritten, the size does not grow,
    and the next new word receives the same index.  That happens for a
    repeated symbol (['AAC'], [k = 1]) and for a word that is a special
    token (the alphabet ['[UNK]'], [k = 5]). *)
Lemma get_token_dict_indices_collide :
  (token_dict ← get_token_dict sample_base_dict "AAC" 1;
   Some (token_dict !! "A", token_dict !! "C")) = Some (Some 6, Some 6)
  ∧ NoDup (String.list_ascii_of_string "[UNK]")
  ∧ (token_dict ← get_token_dict sample_base_dict "[UNK]" 5;
     Some (token_dict !! "[UNK]", token_dict !! "[UN][", sample_base_dict !! "[UNK]"))
    = Some (Some 199, Some 199, Some 1).
Proof.
  split; [vm_compute; reflexivity|]. split.
  - apply (bool_decide_unpack _). vm_compute. exact I.
  - vm_compute. reflexivity.
Qed.

(** ** Classification heads *)

Section HeadsFacts.

Variable load_model : string → option loaded_model.

(** C6, as the code has it.  When the checkpoint loads and has an
    ['NSP-Dense'] layer, the model that is returned has one output, the
    concatenation of three dense softmax heads whose total width is the
    sum of [nr_classes].  The first head reads the trunk output alone;
    the second and the third read the concatenation of the trunk
    output with the softmax output of the head before. *)
Theorem multi_tax_heads pretrained_path superkingdoms families species model nsp :
  load_model pretrained_path = Some model →
  model_layers model !! "NSP-Dense" = Some nsp →
  ∃ superkingdoms_out families_out species_out,
    generate_bert_with_pretrained_multi_tax load_model pretrained_path
      (superkingdoms, families, species)
    = Some (KerasModel (Py.slice (model_inputs model) 0 2)
              (Concatenate [superkingdoms_out; families_out; species_out]))
    ∧ superkingdoms_out
      = Dense superkingdoms "softmax" "superkingdoms_softmax" nsp
    ∧ families_out
      = Dense families "softmax" "families_softmax"
          (Concatenate [nsp; superkingdoms_out])
    ∧ species_out
      = Dense species "softmax" "species_softmax"
          (Concatenate [nsp; families_out])
    ∧ tensor_width (Concatenate [superkingdoms_out; families_out; species_out])
      = superkingdoms + families + species.
Proof.
  intros Hload Hnsp. eexists _, _, _.
  unfold generate_bert_with_pretrained_multi_tax.
  rewrite Hload. simpl. rewrite Hnsp. simpl.
  split; [reflexivity|]. split; [reflexivity|]. split; [reflexivity|].
  split; [reflexivity|]. simpl. lia.
Qed.

End HeadsFacts.

Lemma multi_tax_heads_witness :
  sample_load_model "bert.h5" = Some sample_checkpoint
  ∧ model_layers sample_checkpoint !! "NSP-Dense" = Some (Pretrained "NSP-Dense" 768)
  ∧ ∃ m, generate_bert_with_pretrained_multi_tax sample_load_model "bert.h5" (4, 30, 100)
         = Some m
         ∧ tensor_width (outputs m) = 134.
Proof.
  assert (H1 : sample_load_model "bert.h5" = Some sample_checkpoint) by reflexivity.
  assert (H2 : model_layers sample_checkpoint !! "NSP-Dense"
               = Some (Pretrained "NSP-Dense" 768)) by (vm_compute; reflexivity).
  split; [exact H1|]. split; [exact H2|].
  destruct (multi_tax_heads sample_load_model "bert.h5" 4 30 100 _ _ H1 H2)
    as (sk & fam & sp & Hrun & _ & _ & _ & Hwidth).
  eexists. split; [exact Hrun|]. exact Hwidth.
Defined.

(** C6 as stated fails at the first rank: there is no rank before it,
    and the superkingdom head is applied to the trunk output itself,
    not to a concatenation. *)
Lemma multi_tax_first_head_reads_trunk :
  generate_bert_with_pretrained_multi_tax sample_load_model "bert.h5" (4, 30, 100)
  = Some (KerasModel
            [Pretrained "Input-Token" 512; Pretrained "Input-Segment" 512]
            (Concatenate
               [Dense 4 "softmax" "superkingdoms_softmax" (Pretrained "NSP-Dense" 768);
                Dense 30 "softmax" "families_softmax"
                  (Concatenate
                     [Pretrained "NSP-Dense" 768;
                      Dense 4 "softmax" "superkingdoms_softmax"
                        (Pretrained "NSP-Dense" 768)]);
                Dense 100 "softmax" "species_softmax"
                  (Concatenate
                     [Pretrained "NSP-Dense" 768;
                      Dense 30 "softmax" "families_softmax"
                        (Concatenate
                           [Pretrained "NSP-Dense" 768;
                            Dense 4 "softmax" "superkingdoms_softmax"
                              (Pretrained "NSP-Dense" 768)])])]))
  ∧ ¬ ∃ m heads first rest prev,
        generate_bert_with_pretrained_multi_tax sample_load_model "bert.h5" (4, 30, 100)
        = Some m
        ∧ outputs m = Concatenate heads
        ∧ heads = first :: rest
        ∧ head_input first = Some (Concatenate [Pretrained "NSP-Dense" 768; prev]).
Proof.
  split; [vm_compute; reflexivity|].
  intros (m & heads & first & rest & prev & Hrun & Hout & Hheads & Hin).
  vm_compute in Hrun. injection Hrun as <-. simpl in Hout.
  injection Hout as <-. injection Hheads as <- _. simpl in Hin. discriminate.
Qed.

(** ** Prediction metrics *)

Section PredictFacts.

Context {model generator metric target pred classes X : Type}.
Variable PredictGenerator : generator → bool → generator.
Variable model_predict : model → generator → Z → list pred * generator.
Variable get_targets : generator → list target.
Variable get_x : generator → X.
Variable is_compiled : model → bool.
Variable accuracy : list target → list pred → metric.
Variable loss : list target → list pred → metric.
Variable compute_roc_auc : list target → list pred → option classes → metric.

(** C7.  ['metrics'] and ['metrics_names'] have the same length.  With
    [y] the targets cut to the number of predictions: when [y] is empty
    both lists are empty; otherwise they hold the test accuracy, then
    the test loss exactly when the model is compiled, then the ROC-AUC
    exactly when [roc_auc] is set, in that order. *)
Theorem predict_metrics (m : model) test_generator roc_auc (classes_ : option classes)
    return_data store_x nonverbose :
  let r := predict PredictGenerator model_predict get_targets get_x is_compiled
             accuracy loss compute_roc_auc
             m test_generator roc_auc classes_ return_data store_x nonverbose in
  let run := model_predict m (PredictGenerator test_generator store_x)
               (if nonverbose then 0 else 1) in
  let preds := run.1 in
  let y := Py.slice (get_targets run.2) 0 (Py.len preds) in
  length (metrics r) = length (metrics_names r)
  ∧ match y with
    | [] => metrics r = [] ∧ metrics_names r = []
    | _ :: _ =>
        metrics r
        = [accuracy y preds]
            ++ (if is_compiled m then [loss y preds] else [])
            ++ (if roc_auc then [compute_roc_auc y preds classes_] else [])
        ∧ metrics_names r
          = ["test_accuracy"]
              ++ (if is_compiled m then ["test_loss"] else [])
              ++ (if roc_auc then ["roc_auc"] else [])
    end.
Proof.
  intros r run preds y. subst r. unfold predict. fold run.
  destruct run as [preds' g] eqn:Hrun. simpl in preds, y. subst preds.
  fold y. unfold Py.len at 1.
  destruct y as [|t ts] eqn:Hy; simpl.
  - done.
  - destruct (is_compiled m), roc_auc; done.
Qed.

End PredictFacts.

(** A run on three targets with two predictions, a compiled model and
    [roc_auc] set: three metrics in the documented order. *)
Example predict_metrics_sample :
  let r := predict (metric := string) (classes := unit)
             (λ g _, g) (λ _ g _, ([1; 0]%nat, g)) (λ g, g) (λ g, g) (λ _, true)
             (λ _ _, "acc") (λ _ _, "loss") (λ _ _ _, "auc")
             tt [1; 1; 0]%nat true None false false true in
  metrics r = ["acc"; "loss"; "auc"]
  ∧ metrics_names r = ["test_accuracy"; "test_loss"; "roc_auc"]
  ∧ data r = None ∧ x r = None.
Proof. vm_compute. repeat split. Qed.

(** ** Class weights *)

Lemma dict_sum_empty : dict_sum ∅ = 0.
Proof. unfold dict_sum. apply map_fold_empty. Qed.

Lemma dict_sum_insert (d : gmap string Z) key v :
  d !! key = None → dict_sum (<[key := v]> d) = v + dict_sum d.
Proof.
  intros Hkey. unfold dict_sum. apply map_fold_insert_L; [|done].
  intros. lia.
Qed.

Lemma dict_sum_delete (d : gmap string Z) key v :
  d !! key = Some v → dict_sum d = v + dict_sum (delete key d).
Proof.
  intros Hkey. rewrite <- (insert_delete_id d key v Hkey) at 1.
  apply dict_sum_insert, lookup_delete_eq.
Qed.

(** [d[key] = v + d.get(key, 0)] adds [v] to the sum. *)
Lemma dict_sum_insert_add (d : gmap string Z) key v :
  dict_sum (<[key := v + default 0 (d !! key)]> d) = v + dict_sum d.
Proof.
  destruct (d !! key) as [v0|] eqn:Hkey; simpl.
  - rewrite <- insert_delete_eq, dict_sum_insert by apply lookup_delete_eq.
    rewrite (dict_sum_delete d key v0 Hkey). lia.
  - rewrite dict_sum_insert by done. lia.
Qed.

Lemma low_classes_insert thr (d : gmap string Z) key v :
  d !! key = None →
  low_classes thr (<[key := v]> d)
  = if bool_decide (v < thr) then <[key := v]> (low_classes thr d)
    else low_classes thr d.
Proof.
  intros Hkey. unfold low_classes. rewrite map_filter_insert. simpl.
  case_decide.
  - by rewrite bool_decide_eq_true_2.
  - rewrite bool_decide_eq_false_2 by done. by rewrite delete_id.
Qed.

Lemma kept_classes_insert thr (d : gmap string Z) key v :
  d !! key = None →
  kept_classes thr (<[key := v]> d)
  = if bool_decide (v < thr) then kept_classes thr d
    else <[key := v]> (kept_classes thr d).
Proof.
  intros Hkey. unfold kept_classes. rewrite map_filter_insert. simpl.
  case_decide.
  - by rewrite bool_decide_eq_false_2.
  - rewrite bool_decide_eq_true_2 by lia. by rewrite delete_id.
Qed.

Lemma low_classes_lookup thr (d : gmap string Z) key :
  low_classes thr d !! key
  = v ← d !! key; if bool_decide (v < thr) then Some v else None.
Proof.
  unfold low_classes. rewrite map_lookup_filter.
  destruct (d !! key) as [v|]; simpl; [|done].
  case_guard; case_bool_decide; done.
Qed.

Lemma kept_classes_lookup thr (d : gmap string Z) key :
  kept_classes thr d !! key
  = v ← d !! key; if bool_decide (v < thr) then None else Some v.
Proof.
  unfold kept_classes. rewrite map_lookup_filter.
  destruct (d !! key) as [v|]; simpl; [|done].
  case_guard; case_bool_decide; done.
Qed.

(** Every class is either below the threshold or kept. *)
Lemma dict_sum_split thr (d : gmap string Z) :
  dict_sum (low_classes thr d) + dict_sum (kept_classes thr d) = dict_sum d.
Proof.
  induction d as [|key v d Hkey IH] using map_ind.
  - unfold low_classes, kept_classes. rewrite !map_filter_empty, dict_sum_empty. lia.
  - rewrite low_classes_insert, kept_classes_insert by done.
    rewrite (dict_sum_insert d) by done.
    case_bool_decide.
    + rewrite dict_sum_insert; [lia|].
      rewrite low_classes_lookup, Hkey. done.
    + rewrite dict_sum_insert; [lia|].
      rewrite kept_classes_lookup, Hkey. done.
Qed.

Lemma difference_low_classes thr (d : gmap string Z) :
  d ∖ low_classes thr d = kept_classes thr d.
Proof.
  apply map_eq. intros key.
  rewrite lookup_difference, low_classes_lookup, kept_classes_lookup.
  destruct (d !! key) as [v|]; simpl; [|done]. by case_bool_decide.
Qed.

Lemma truediv_nonzero a b :
  b ≠ 0 → truediv a b = Some (inject_Z a / inject_Z b)%Q.
Proof. intros Hb. unfold truediv. by rewrite bool_decide_eq_false_2. Qed.

(** The loop over [dict_.items()], run over a part [m] of the tally
    [D] that [classes_tax_i] was copied from: the counts below the
    threshold are summed up and their classes removed, the other
    classes get their weight.  No [pop] misses its key and no
    division is by zero. *)
Lemma collapse_fold n thr (D m : gmap string Z) :
  (∀ key v, m !! key = Some v → D !! key = Some v) →
  map_Forall (λ _ v, v ≠ 0) m →
  ∃ weights : gmap string Q,
    map_fold (collapse_step n thr) (Some (0, D, ∅)) m
    = Some (dict_sum (low_classes thr m), D ∖ low_classes thr m, weights)
    ∧ ∀ key, weights !! key
             = v ← kept_classes thr m !! key; Some (inject_Z n / inject_Z v)%Q.
Proof.
  induction m as [|key v m Hkey Hfirst IH] using map_first_key_ind;
    intros Hsub Hnz.
  - exists ∅. rewrite map_fold_empty. split.
    + unfold low_classes. rewrite map_filter_empty, dict_sum_empty.
      by rewrite map_difference_empty.
    + intros key. unfold kept_classes.
      by rewrite map_filter_empty, !lookup_empty.
  - destruct IH as (weights & Hfold & Hweights).
    { intros key' v' Hm. apply Hsub. rewrite lookup_insert_ne; [done|].
      intros ->. congruence. }
    { by apply map_Forall_insert_1_2 in Hnz. }
    rewrite map_fold_insert_first_key by done. rewrite Hfold.
    rewrite low_classes_insert, kept_classes_insert by done.
    assert (HD : D !! key = Some v) by (apply Hsub, lookup_insert_eq).
    assert (Hlow : low_classes thr m !! key = None)
      by (by rewrite low_classes_lookup, Hkey).
    unfold collapse_step; simpl. case_bool_decide as Hv.
    + rewrite lookup_difference, Hlow, HD. simpl.
      exists weights. split; [|done].
      rewrite dict_sum_insert by done.
      replace (D ∖ <[key := v]> (low_classes thr m))
        with (delete key (D ∖ low_classes thr m)); [by rewrite Z.add_comm|].
      apply map_eq. intros key'.
      destruct (decide (key = key')) as [<-|Hne].
      * by rewrite lookup_delete_eq, lookup_difference, lookup_insert_eq.
      * by rewrite lookup_delete_ne, !lookup_difference, lookup_insert_ne.
    + rewrite truediv_nonzero by (by apply map_Forall_insert_1_1 in Hnz). simpl.
      eexists. split; [done|]. intros key'.
      destruct (decide (key = key')) as [<-|Hne].
      * by rewrite !lookup_insert_eq.
      * by rewrite !lookup_insert_ne.
Qed.

(** The result for one rank, for a tally without a zero count. *)
Lemma rank_classes_and_weights_spec n thr (D : gmap string Z) :
  map_Forall (λ _ v, v ≠ 0) D →
  ∃ weights : gmap string Q,
    rank_classes_and_weights n thr D
    = Some (<["unknown" := unknown_count thr D]> (kept_classes thr D), weights)
    ∧ (∀ key, key ≠ "unknown" →
         weights !! key
         = v ← kept_classes thr D !! key; Some (inject_Z n / inject_Z v)%Q)
    ∧ weights !! "unknown"
      = Some (if bool_decide (unknown_count thr D ≠ 0)
              then (inject_Z n / inject_Z (unknown_count thr D))%Q
              else 1%Q).
Proof.
  intros Hnz.
  destruct (collapse_fold n thr D D) as (weights & Hfold & Hweights); [done..|].
  unfold rank_classes_and_weights. rewrite Hfold. simpl.
  rewrite difference_low_classes. fold (unknown_count thr D).
  case_bool_decide as Hu.
  - rewrite truediv_nonzero by done. simpl. eexists. split; [done|]. split.
    + intros key Hne. by rewrite lookup_insert_ne.
    + by rewrite lookup_insert_eq.
  - simpl. eexists. split; [done|]. split.
    + intros key Hne. by rewrite lookup_insert_ne.
    + by rewrite lookup_insert_eq.
Qed.

Lemma unknown_count_sum thr (D : gmap string Z) :
  dict_sum (<["unknown" := unknown_count thr D]> (kept_classes thr D)) = dict_sum D.
Proof.
  unfold unknown_count. rewrite dict_sum_insert_add.
  apply dict_sum_split.
Qed.

(** Two iterations of the loop on different keys can be swapped. *)
Lemma collapse_step_commute n thr key1 v1 key2 v2 st :
  key1 ≠ key2 →
  collapse_step n thr key1 v1 (collapse_step n thr key2 v2 st)
  = collapse_step n thr key2 v2 (collapse_step n thr key1 v1 st).
Proof.
  intros Hne. destruct st as [[[unknown classes_tax_i] weights]|]; [|done].
  unfold collapse_step; simpl.
  destruct (bool_decide (v1 < thr)) eqn:H1, (bool_decide (v2 < thr)) eqn:H2; simpl.
  - destruct (classes_tax_i !! key1) as [c1|] eqn:Hc1,
             (classes_tax_i !! key2) as [c2|] eqn:Hc2;
      simpl; rewrite ?H1, ?H2; simpl;
      rewrite ?lookup_delete_ne by done; rewrite ?Hc1, ?Hc2; simpl; try done.
    rewrite delete_delete. do 3 f_equal. lia.
  - destruct (classes_tax_i !! key1) as [c1|] eqn:Hc1,
             (truediv n v2) as [q2|] eqn:Hq2;
      simpl; rewrite ?H1, ?H2; simpl; rewrite ?Hc1, ?Hq2; simpl; done.
  - destruct (truediv n v1) as [q1|] eqn:Hq1,
             (classes_tax_i !! key2) as [c2|] eqn:Hc2;
      simpl; rewrite ?H1, ?H2; simpl; rewrite ?Hc2, ?Hq1; simpl; done.
  - destruct (truediv n v1) as [q1|] eqn:Hq1,
             (truediv n v2) as [q2|] eqn:Hq2;
      simpl; rewrite ?H1, ?H2; simpl; rewrite ?Hq1, ?Hq2; simpl; try done.
    by rewrite insert_insert_ne.
Qed.

Lemma foldl_as_foldr {A B} (f : A → B → B) (b : B) (l : list A) :
  foldl (λ acc a, f a acc) b l = foldr f b (reverse l).
Proof.
  revert b. induction l as [|a l IH]; intros b; [done|].
  simpl. by rewrite IH, reverse_cons, foldr_app.
Qed.

(** The loop gives the same state in whatever order the dictionary
    yields its items, the insertion order of Python included. *)
Lemma collapse_any_order n thr (D : gmap string Z) init (items : list (string * Z)) :
  items ≡ₚ map_to_list D →
  foldl (λ st kv, collapse_step n thr kv.1 kv.2 st) init items
  = map_fold (collapse_step n thr) init D.
Proof.
  intros Hitems.
  rewrite (foldl_as_foldr (λ kv st, collapse_step n thr kv.1 kv.2 st)).
  rewrite map_fold_foldr.
  assert (Hperm : reverse items ≡ₚ map_to_list D) by by rewrite reverse_Permutation.
  assert (Hnd : NoDup (reverse items).*1).
  { rewrite Hperm. apply NoDup_fst_map_to_list. }
  rewrite (foldr_permutation (=) _ init (reverse items) (map_to_list D)); [| |done].
  - clear. induction (map_to_list D) as [|[key v] l IH]; [done|].
    simpl. by rewrite IH.
  - intros j1 [key1 v1] j2 [key2 v2] st Hj H1 H2. simpl.
    apply collapse_step_commute. intros ->. apply Hj.
    apply (NoDup_lookup _ _ _ key2 Hnd); by rewrite list_lookup_fmap, ?H1, ?H2.
Qed.

(** The dictionary that repeated counting builds holds, for each name,
    the number of its occurrences, and no entry for a name that does
    not occur. *)
Lemma count_keys_lookup (d : gmap string Z) names key :
  foldl count_one d names !! key
  = if bool_decide (occurrences key names = 0) then d !! key
    else Some (default 0 (d !! key) + occurrences key names).
Proof.
  revert d. induction names as [|a names IH]; intros d; [done|].
  simpl. rewrite IH. unfold occurrences, Py.len, count_one.
  rewrite filter_cons. destruct (decide (a = key)) as [->|Ha].
  - rewrite lookup_insert_eq. simpl length.
    rewrite (bool_decide_eq_false_2 (Z.of_nat (S _) = 0)) by lia.
    clear IH. case_bool_decide as H0; simpl default; f_equal; lia.
  - by rewrite lookup_insert_ne.
Qed.

Lemma count_keys_sum (d : gmap string Z) names :
  dict_sum (foldl count_one d names) = dict_sum d + Py.len names.
Proof.
  revert d. induction names as [|a names IH]; intros d; simpl.
  - unfold Py.len. simpl. lia.
  - rewrite IH. unfold count_one. rewrite (Z.add_comm _ 1), dict_sum_insert_add.
    unfold Py.len. simpl length. lia.
Qed.

Lemma count_keys_nonzero (d : gmap string Z) names :
  map_Forall (λ _ v, 1 ≤ v) d →
  map_Forall (λ _ v, 1 ≤ v) (foldl count_one d names).
Proof.
  revert d. induction names as [|a names IH]; intros d Hd; simpl; [done|].
  apply IH. unfold count_one. apply map_Forall_insert_2; [|done].
  destruct (d !! a) as [v|] eqn:Ha; simpl; [|lia].
  specialize (Hd a v Ha). simpl in Hd. lia.
Qed.

Section ClassWeightsFacts.

Context {taxid : Type}.
Variable rank_name : taxid → string → string.

(** The first loop builds the three tallies side by side. *)
Lemma tally_ranks_eq (species_list : list taxid) :
  tally_ranks rank_name species_list
  = (foldl count_one ∅ (rank_names rank_name "superkingdom" species_list),
     foldl count_one ∅ (rank_names rank_name "kingdom" species_list),
     foldl count_one ∅ (rank_names rank_name "family" species_list)).
Proof.
  unfold tally_ranks.
  generalize (∅ : gmap string Z) at 1 4.
  generalize (∅ : gmap string Z) at 1 3.
  generalize (∅ : gmap string Z).
  induction species_list as [|t l IH]; intros d3 d2 d1; [done|].
  simpl. by rewrite IH.
Qed.

Lemma tally_nonzero rank (species_list : list taxid) :
  map_Forall (λ _ v, v ≠ 0)
    (foldl count_one ∅ (rank_names rank_name rank species_list)).
Proof.
  intros key v Hkey.
  pose proof (count_keys_nonzero ∅ (rank_names rank_name rank species_list)
                (map_Forall_empty _) key v Hkey) as Hv.
  simpl in Hv. lia.
Qed.

(** The whole run, in terms of the three tallies. *)
Lemma get_classes_and_weights_eval (species_list : list taxid) unknown_thr :
  let n := Py.len species_list in
  let tally rank := foldl count_one ∅ (rank_names rank_name rank species_list) in
  let classes_of rank :=
    <["unknown" := unknown_count unknown_thr (tally rank)]>
      (kept_classes unknown_thr (tally rank)) in
  ∃ weights : string → gmap string Q,
    get_classes_and_weights_multi_tax rank_name species_list unknown_thr
    = Some (<["family" := classes_of "family"]>
              (<["kingdom" := classes_of "kingdom"]>
                 (<["superkingdom" := classes_of "superkingdom"]> ∅)),
            <["family" := weights "family"]>
              (<["kingdom" := weights "kingdom"]>
                 (<["superkingdom" := weights "superkingdom"]> ∅)))
    ∧ ∀ rank,
        (∀ key, key ≠ "unknown" →
           weights rank !! key
           = v ← kept_classes unknown_thr (tally rank) !! key;
             Some (inject_Z n / inject_Z v)%Q)
        ∧ weights rank !! "unknown"
          = Some (if bool_decide (unknown_count unknown_thr (tally rank) ≠ 0)
                  then (inject_Z n / inject_Z (unknown_count unknown_thr (tally rank)))%Q
                  else 1%Q).
Proof.
  intros n tally classes_of.
  assert (Hrank : ∀ rank, ∃ weights : gmap string Q,
    rank_classes_and_weights n unknown_thr (tally rank)
    = Some (classes_of rank, weights)
    ∧ (∀ key, key ≠ "unknown" →
         weights !! key
         = v ← kept_classes unknown_thr (tally rank) !! key;
           Some (inject_Z n / inject_Z v)%Q)
    ∧ weights !! "unknown"
      = Some (if bool_decide (unknown_count unknown_thr (tally rank) ≠ 0)
              then (inject_Z n / inject_Z (unknown_count unknown_thr (tally rank)))%Q
              else 1%Q)).
  { intros rank. apply rank_classes_and_weights_spec, tally_nonzero. }
  exists (λ rank, default ∅ (snd <$> rank_classes_and_weights n unknown_thr (tally rank))).
  split.
  - destruct (Hrank "superkingdom") as (w1 & Hrun1 & _).
    destruct (Hrank "kingdom") as (w2 & Hrun2 & _).
    destruct (Hrank "family") as (w3 & Hrun3 & _).
    unfold get_classes_and_weights_multi_tax. rewrite tally_ranks_eq.
    fold n. fold (tally "superkingdom") (tally "kingdom") (tally "family").
    simpl. rewrite Hrun1. simpl. rewrite Hrun2. simpl. rewrite Hrun3. done.
  - intros rank. destruct (Hrank rank) as (w & Hrun & Hw).
    rewrite Hrun. done.
Qed.

Lemma rank_names_length rank (species_list : list taxid) :
  Py.len (rank_names rank_name rank species_list) = Py.len species_list.
Proof. unfold rank_names, Py.len. by rewrite length_fmap. Qed.

Lemma rank_keys_cases (P : string → Prop) :
  P "superkingdom" → P "kingdom" → P "family" → ∀ rank, rank ∈ rank_keys → P rank.
Proof.
  intros H1 H2 H3 rank Hrank. unfold rank_keys in Hrank.
  repeat (apply elem_of_cons in Hrank as [->|Hrank]; [done|]).
  by apply elem_of_nil in Hrank.
Qed.

(** C4, as the code has it.  One pass tallies, per rank, how many taxa
    of [species_list] carry each name.  Per rank, a class other than
    ['unknown'] stays with its count exactly when the count is not
    below [unknown_thr], and then gets the weight
    [len(species_list) / count]; the counts strictly below the
    threshold go to the ['unknown'] bucket.  A class that is itself
    named ['unknown'] and is not below the threshold is merged into
    that bucket, and the bucket is weighted as a whole:
    [len(species_list)] divided by the bucket count, or 1 when the
    bucket is empty. *)
Theorem classes_and_weights_by_rank (species_list : list taxid) unknown_thr :
  ∃ (tally : string → gmap string Z) classes weight_classes,
    tally_ranks rank_name species_list
    = (tally "superkingdom", tally "kingdom", tally "family")
    ∧ get_classes_and_weights_multi_tax rank_name species_list unknown_thr
      = Some (classes, weight_classes)
    ∧ ∀ rank, rank ∈ rank_keys →
        (∀ key,
           tally rank !! key
           = if bool_decide
                  (occurrences key (rank_names rank_name rank species_list) = 0)
             then None
             else Some (occurrences key (rank_names rank_name rank species_list)))
        ∧ ∃ classes_tax_i weight_classes_tax_i,
            classes !! rank = Some classes_tax_i
            ∧ weight_classes !! rank = Some weight_classes_tax_i
            ∧ (∀ key, key ≠ "unknown" →
                 classes_tax_i !! key
                 = value ← tally rank !! key;
                   if bool_decide (value < unknown_thr) then None else Some value)
            ∧ classes_tax_i !! "unknown"
              = Some (dict_sum (low_classes unknown_thr (tally rank))
                      + default 0 (kept_classes unknown_thr (tally rank) !! "unknown"))
            ∧ (∀ key, key ≠ "unknown" →
                 weight_classes_tax_i !! key
                 = value ← tally rank !! key;
                   if bool_decide (value < unknown_thr) then None
                   else Some (inject_Z (Py.len species_list) / inject_Z value)%Q)
            ∧ weight_classes_tax_i !! "unknown"
              = Some (if bool_decide (unknown_count unknown_thr (tally rank) = 0)
                      then 1%Q
                      else (inject_Z (Py.len species_list)
                            / inject_Z (unknown_count unknown_thr (tally rank)))%Q).
Proof.
  destruct (get_classes_and_weights_eval species_list unknown_thr)
    as (weights & Hrun & Hweights).
  eexists (λ rank, foldl count_one ∅ (rank_names rank_name rank species_list)), _, _.
  split; [apply tally_ranks_eq|]. split; [exact Hrun|].
  assert (Hspec : ∀ rank c w,
    c = <["unknown" := unknown_count unknown_thr
            (foldl count_one ∅ (rank_names rank_name rank species_list))]>
          (kept_classes unknown_thr
             (foldl count_one ∅ (rank_names rank_name rank species_list))) →
    w = weights rank →
    (∀ key, key ≠ "unknown" →
       c !! key
       = value ← foldl count_one ∅ (rank_names rank_name rank species_list) !! key;
         if bool_decide (value < unknown_thr) then None else Some value)
    ∧ c !! "unknown"
      = Some (unknown_count unknown_thr
                (foldl count_one ∅ (rank_names rank_name rank species_list)))
    ∧ (∀ key, key ≠ "unknown" →
         w !! key
         = value ← foldl count_one ∅ (rank_names rank_name rank species_list) !! key;
           if bool_decide (value < unknown_thr) then None
           else Some (inject_Z (Py.len species_list) / inject_Z value)%Q)
    ∧ w !! "unknown"
      = Some (if bool_decide
                   (unknown_count unknown_thr
                      (foldl count_one ∅ (rank_names rank_name rank species_list)) = 0)
              then 1%Q
              else (inject_Z (Py.len species_list)
                    / inject_Z (unknown_count unknown_thr
                        (foldl count_one ∅
                           (rank_names rank_name rank species_list))))%Q)).
  { intros rank c w -> ->. destruct (Hweights rank) as [Hw Hu].
    split; [|split; [|split]].
    - intros key Hne. rewrite lookup_insert_ne by done.
      apply kept_classes_lookup.
    - apply lookup_insert_eq.
    - intros key Hne. rewrite (Hw key Hne), kept_classes_lookup.
      destruct (foldl count_one ∅ _ !! key) as [v|]; simpl; [|done].
      destruct (bool_decide (v < unknown_thr)); done.
    - rewrite Hu. f_equal. repeat case_bool_decide; done. }
  apply rank_keys_cases; (split;
    [intros key; rewrite count_keys_lookup, lookup_empty; simpl;
     case_bool_decide; [done | f_equal; lia]|]).
  - eexists _, _. split; [by do 2 (rewrite lookup_insert_ne by done); rewrite lookup_insert_eq|].
    split; [by do 2 (rewrite lookup_insert_ne by done); rewrite lookup_insert_eq|].
    by apply Hspec.
  - eexists _, _. split; [by rewrite lookup_insert_ne by done; rewrite lookup_insert_eq|].
    split; [by rewrite lookup_insert_ne by done; rewrite lookup_insert_eq|].
    by apply Hspec.
  - eexists _, _. split; [by rewrite lookup_insert_eq|].
    split; [by rewrite lookup_insert_eq|].
    by apply Hspec.
Qed.

(** C8.  For each of the three ranks, the counts of the classes that
    are returned, the ['unknown'] bucket included, add up to
    [len(species_list)]; a kept class named ['unknown'] is counted
    once, inside the bucket. *)
Theorem classes_counts_sum (species_list : list taxid) unknown_thr :
  ∃ classes weight_classes,
    get_classes_and_weights_multi_tax rank_name species_list unknown_thr
    = Some (classes, weight_classes)
    ∧ ∀ rank, rank ∈ rank_keys →
        ∃ classes_tax_i,
          classes !! rank = Some classes_tax_i
          ∧ dict_sum classes_tax_i = Py.len species_list.
Proof.
  destruct (get_classes_and_weights_eval species_list unknown_thr)
    as (weights & Hrun & _).
  eexists _, _. split; [exact Hrun|].
  assert (Hsum : ∀ rank,
    dict_sum (<["unknown" := unknown_count unknown_thr
                  (foldl count_one ∅ (rank_names rank_name rank species_list))]>
                (kept_classes unknown_thr
                   (foldl count_one ∅ (rank_names rank_name rank species_list))))
    = Py.len species_list).
  { intros rank. rewrite unknown_count_sum, count_keys_sum, dict_sum_empty.
    rewrite rank_names_length. lia. }
  apply rank_keys_cases; eexists; (split; [|apply Hsum]).
  - by do 2 (rewrite lookup_insert_ne by done); rewrite lookup_insert_eq.
  - by rewrite lookup_insert_ne by done; rewrite lookup_insert_eq.
  - by rewrite lookup_insert_eq.
Qed.

(** C9.  The run always returns, so no division is by zero, and for
    each of the three ranks both dictionaries have the key
    ['unknown']: the bucket count [u] in [classes], and in
    [weight_classes] the weight 1 when [u] is 0 and
    [len(species_list) / u] otherwise. *)
Theorem unknown_bucket_always_present (species_list : list taxid) unknown_thr :
  ∃ classes weight_classes,
    get_classes_and_weights_multi_tax rank_name species_list unknown_thr
    = Some (classes, weight_classes)
    ∧ ∀ rank, rank ∈ rank_keys →
        ∃ classes_tax_i weight_classes_tax_i u,
          classes !! rank = Some classes_tax_i
          ∧ weight_classes !! rank = Some weight_classes_tax_i
          ∧ classes_tax_i !! "unknown" = Some u
          ∧ weight_classes_tax_i !! "unknown"
            = Some (if bool_decide (u = 0) then 1%Q
                    else (inject_Z (Py.len species_list) / inject_Z u)%Q).
Proof.
  destruct (get_classes_and_weights_eval species_list unknown_thr)
    as (weights & Hrun & Hweights).
  eexists _, _. split; [exact Hrun|].
  assert (Hu : ∀ rank,
    weights rank !! "unknown"
    = Some (if bool_decide
                 (unknown_count unknown_thr
                    (foldl count_one ∅ (rank_names rank_name rank species_list)) = 0)
            then 1%Q
            else (inject_Z (Py.len species_list)
                  / inject_Z (unknown_count unknown_thr
                      (foldl count_one ∅
                         (rank_names rank_name rank species_list))))%Q)).
  { intros rank. destruct (Hweights rank) as [_ ->]. f_equal.
    repeat case_bool_decide; done. }
  apply rank_keys_cases; eexists _, _, _.
  - split; [by do 2 (rewrite lookup_insert_ne by done); rewrite lookup_insert_eq|].
    split; [by do 2 (rewrite lookup_insert_ne by done); rewrite lookup_insert_eq|].
    split; [apply lookup_insert_eq | apply Hu].
  - split; [by rewrite lookup_insert_ne by done; rewrite lookup_insert_eq|].
    split; [by rewrite lookup_insert_ne by done; rewrite lookup_insert_eq|].
    split; [apply lookup_insert_eq | apply Hu].
  - split; [by rewrite lookup_insert_eq|].
    split; [by rewrite lookup_insert_eq|].
    split; [apply lookup_insert_eq | apply Hu].
Qed.

End ClassWeightsFacts.

(** C4 as stated fails for a kept class that is named ['unknown'].  Of
    three taxa, two have the kingdom name ['unknown'] and one is in
    ['Fungi']; with [unknown_thr = 2] the class ['unknown'] is kept
    with count 2, ['Fungi'] is collapsed into the bucket, and the
    weight of ['unknown'] is 3/3 for the merged bucket, not 3/2. *)
Lemma kept_unknown_weight_is_bucket_weight :
  (tally_ranks sample_rank_name [1; 2; 3]%nat).1.2 !! "unknown" = Some 2
  ∧ (tally_ranks sample_rank_name [1; 2; 3]%nat).1.2 !! "Fungi" = Some 1
  ∧ (r ← get_classes_and_weights_multi_tax sample_rank_name [1; 2; 3]%nat 2;
     c ← r.1 !! "kingdom"; w ← r.2 !! "kingdom";
     Some (c !! "unknown", c !! "Fungi", w !! "unknown", w !! "Fungi"))
    = Some (Some 3, None, Some (3 # 3)%Q, None)
  ∧ ¬ ((3 # 3) == inject_Z 3 / inject_Z 2)%Q.
Proof.
  split; [vm_compute; reflexivity|]. split; [vm_compute; reflexivity|].
  split; [vm_compute; reflexivity|]. vm_compute. discriminate.
Qed.

(** The same run keeps the sum of the kingdom counts at three. *)
Example kept_unknown_counts_sum :
  (r ← get_classes_and_weights_multi_tax sample_rank_name [1; 2; 3]%nat 2;
   c ← r.1 !! "kingdom"; Some (dict_sum c)) = Some 3.
Proof. vm_compute. reflexivity. Qed.

(** * Further properties *)

(** ** Sequence encoding: errors, modes and vocabulary *)

Lemma slice_subseteq {A} (l : list A) start stop : Py.slice l start stop ⊆ l.
Proof.
  unfold Py.slice. etrans; [apply subseteq_take | apply subseteq_drop].
Qed.

Lemma seq_length_None_iff rnd seq_length max_length seq_len_like :
  seq2tokens_seq_length rnd seq_length max_length seq_len_like = None
  ↔ seq_len_like = Some [].
Proof.
  unfold seq2tokens_seq_length. destruct seq_len_like as [lens|]; [|done].
  destruct lens as [|c lens].
  - done.
  - destruct (PyFacts.random_choice_is_Some (Py.choice_draw rnd) (c :: lens))
      as [x Hx]; [done|].
    rewrite Hx. done.
Qed.

Lemma encode_word_None token_dict word :
  encode_word token_dict word = None
  ↔ token_dict !! "[UNK]" = None ∧ token_dict !! word = None.
Proof.
  unfold encode_word. destruct (token_dict !! word); [|tauto].
  split; [done | intros [_ ?]; done].
Qed.

Section Seq2TokensMore.

Variable seq2kmers : string → Z → Z → bool → list string.

(** The steps of a run that returns. *)
Lemma seq2tokens_Some_inv rnd seq token_dict seq_length max_length k stride
    window seq_len_like indices segments :
  seq2tokens seq2kmers rnd seq token_dict seq_length max_length k stride window
    seq_len_like = Some (indices, segments) →
  ∃ L cls body,
    seq2tokens_seq_length rnd seq_length max_length seq_len_like = Some L
    ∧ token_dict !! "[CLS]" = Some cls
    ∧ mapM (encode_word token_dict)
        (seq2tokens_window rnd (seq2kmers seq k stride true) L window) = Some body
    ∧ seq2tokens_fit token_dict (cls :: body)
        (seq2tokens_max_length seq_length max_length) = Some indices
    ∧ segments = Py.repeat 0 (seq2tokens_max_length seq_length max_length).
Proof.
  unfold seq2tokens. intros Hrun.
  destruct (seq2tokens_seq_length rnd seq_length max_length seq_len_like)
    as [L|]; [|done].
  simpl in Hrun. destruct (token_dict !! "[CLS]") as [cls|]; [|done].
  simpl in Hrun.
  destruct (mapM (encode_word token_dict) _) as [body|] eqn:Hbody; [|done].
  simpl in Hrun.
  destruct (seq2tokens_fit token_dict (cls :: body) _) as [fitted|] eqn:Hfit;
    [|done].
  simpl in Hrun. injection Hrun as <- <-. by exists L, cls, body.
Qed.

(** X1.  [seq2kmers] is defined outside this module; when its call
    returns the list [kmers], [seq2tokens] raises in exactly four
    cases: [seq_len_like] is an empty array; ['[CLS]'] is not in the
    dictionary; some word of the selected window is not in the
    dictionary and ['[UNK]'] is not either; or the encoded window is
    shorter than [max_length] and the padding token [''] is not in the
    dictionary. *)
Theorem seq2tokens_raises_iff rnd seq token_dict seq_length max_length k stride
    window seq_len_like kmers :
  seq2kmers seq k stride true = kmers →
  (seq2tokens seq2kmers rnd seq token_dict seq_length max_length k stride window
     seq_len_like = None
   ↔ seq_len_like = Some []
     ∨ ∃ L, seq2tokens_seq_length rnd seq_length max_length seq_len_like = Some L
         ∧ (token_dict !! "[CLS]" = None
            ∨ (token_dict !! "[UNK]" = None
               ∧ ∃ word,
                   word ∈ seq2tokens_window rnd kmers L window
                   ∧ token_dict !! word = None)
            ∨ (token_dict !! "" = None
               ∧ 1 + Py.len (seq2tokens_window rnd kmers L window)
                 < seq2tokens_max_length seq_length max_length))).
Proof.
  intros <-.
  rewrite <- (seq_length_None_iff rnd seq_length max_length).
  unfold seq2tokens.
  destruct (seq2tokens_seq_length rnd seq_length max_length seq_len_like)
    as [L|]; simpl; [|by split; [left|]].
  set (words := seq2tokens_window rnd (seq2kmers seq k stride true) L window).
  set (M := seq2tokens_max_length seq_length max_length).
  assert (Hunk : mapM (encode_word token_dict) words = None
                 ↔ token_dict !! "[UNK]" = None
                   ∧ ∃ word, word ∈ words ∧ token_dict !! word = None).
  { rewrite mapM_None, Exists_exists. split.
    - intros (word & Hword & Henc). apply encode_word_None in Henc as [??]. eauto.
    - intros (Hu & word & Hword & Hnone). exists word. split; [done|].
      by apply encode_word_None. }
  split.
  - intros Hrun. right. exists L. split; [done|].
    destruct (token_dict !! "[CLS]") as [cls|]; [|by left]. right.
    simpl in Hrun.
    destruct (mapM (encode_word token_dict) words) as [body|] eqn:Hbody;
      [|by left; apply Hunk].
    right. simpl in Hrun. unfold seq2tokens_fit in Hrun.
    apply mapM_Some_1, Forall2_length in Hbody.
    case_bool_decide as Hlt; [|done].
    destruct (token_dict !! "") as [pad|]; [done|].
    split; [done|]. unfold Py.len in *. simpl length in Hlt. fold words. lia.
  - intros [?|(L' & [= <-] & Hcase)]; [done|].
    destruct Hcase as [->|[Hw|[Hpad Hlt]]]; [done| |].
    + destruct (token_dict !! "[CLS]"); [|done]. simpl.
      apply Hunk in Hw. by rewrite Hw.
    + destruct (token_dict !! "[CLS]") as [cls|]; [|done]. simpl.
      destruct (mapM (encode_word token_dict) words) as [body|] eqn:Hbody;
        [|done].
      simpl. unfold seq2tokens_fit. apply mapM_Some_1, Forall2_length in Hbody.
      rewrite bool_decide_eq_true_2, Hpad; [done|].
      unfold Py.len in *. simpl length. fold words in Hlt. lia.
Qed.

(** X2.  With the default [max_length] (that is, [seq_length]), no
    [seq_len_like], [seq_length >= 1] and ['[UNK]'] in the dictionary,
    [window=False] gives the result of a [window=True] run whose drawn
    start is 0:
    the extra word that [window=False] slices is cut off again by the
    truncation to [max_length]. *)
Theorem seq2tokens_modes_agree rnd rnd' seq token_dict seq_length k stride unk :
  1 ≤ seq_length →
  token_dict !! "[UNK]" = Some unk →
  fst (seq2tokens_bounds rnd (seq2kmers seq k stride true) seq_length true) = 0 →
  seq2tokens seq2kmers rnd seq token_dict seq_length None k stride true None
  = seq2tokens seq2kmers rnd' seq token_dict seq_length None k stride false None.
Proof.
  intros HL Hunk Hdraw. unfold seq2tokens. simpl.
  destruct (token_dict !! "[CLS]") as [cls|]; [|done]. simpl.
  rewrite !(encode_words_unk _ unk) by done. simpl.
  set (kmers := seq2kmers seq k stride true).
  set (f := λ w : string, default unk (token_dict !! w)).
  assert (HT : seq2tokens_window rnd kmers seq_length true
               = take (Z.to_nat (seq_length - 1)) kmers).
  { unfold seq2tokens_window. fold kmers in Hdraw.
    pose proof (seq2tokens_bounds_range rnd kmers seq_length true) as Hb.
    destruct (seq2tokens_bounds rnd kmers seq_length true) as [start end_].
    simpl in Hdraw. subst start. destruct Hb as (_ & -> & _).
    rewrite PyFacts.slice_prefix by lia. f_equal; lia. }
  assert (HF : seq2tokens_window rnd' kmers seq_length false
               = take (Z.to_nat seq_length) kmers).
  { unfold seq2tokens_window, seq2tokens_bounds.
    by rewrite PyFacts.slice_prefix by lia. }
  rewrite HT, HF. unfold seq2tokens_max_length. simpl.
  assert (Hn : Z.to_nat seq_length = S (Z.to_nat (seq_length - 1))) by lia.
  destruct (decide (Z.to_nat seq_length ≤ length kmers)%nat) as [Hlong|Hshort].
  - unfold seq2tokens_fit, Py.len. simpl length.
    rewrite !length_fmap, !length_take.
    rewrite bool_decide_eq_false_2 by lia.
    rewrite bool_decide_eq_false_2 by lia. simpl.
    rewrite !PyFacts.slice_prefix by lia. rewrite !Hn. simpl.
    rewrite <- !fmap_take, !take_take.
    by rewrite Nat.min_id, (Nat.min_l _ (S _)) by lia.
  - rewrite !(take_ge kmers) by lia. done.
Qed.

(** X3.  Every index that [seq2tokens] returns is the index of some
    key of the dictionary. *)
Theorem seq2tokens_indices_in_vocabulary rnd seq token_dict seq_length max_length
    k stride window seq_len_like indices segments :
  seq2tokens seq2kmers rnd seq token_dict seq_length max_length k stride window
    seq_len_like = Some (indices, segments) →
  Forall (λ i, ∃ key, token_dict !! key = Some i) indices.
Proof.
  intros (L & cls & body & _ & Hcls & Hbody & Hfit & _)%seq2tokens_Some_inv.
  assert (Henc : Forall (λ i, ∃ key, token_dict !! key = Some i) (cls :: body)).
  { constructor; [eauto|].
    apply mapM_Some_1 in Hbody. apply (Forall2_Forall_r _ _ _ _ Hbody).
    apply Forall_forall. intros word _ i. unfold encode_word.
    destruct (token_dict !! word) as [j|] eqn:Hword.
    - intros [= <-]. eauto.
    - eauto. }
  unfold seq2tokens_fit in Hfit. case_bool_decide.
  - destruct (token_dict !! "") as [pad|] eqn:Hpad; [|done].
    injection Hfit as <-. apply (Forall_app _ (cls :: body)). split; [done|].
    apply Forall_forall. intros i ->%elem_of_replicate_inv. eauto.
  - injection Hfit as <-. eapply Forall_forall. intros i Hi.
    apply slice_subseteq in Hi. by eapply Forall_forall in Henc.
Qed.

(** X4.  In window mode the last k-mer of a sequence that is longer
    than [seq_length] is never encoded: the window is [seq_length - 1]
    consecutive words of the sequence without its last word. *)
Theorem seq2tokens_window_skips_last rnd (kmers : list string) seq_length :
  1 ≤ seq_length →
  seq_length < Py.len kmers →
  ∃ start : nat,
    seq2tokens_window rnd kmers seq_length true
    = take (Z.to_nat (seq_length - 1)) (drop start (take (length kmers - 1) kmers))
    ∧ Py.len (seq2tokens_window rnd kmers seq_length true) = seq_length - 1.
Proof.
  intros HL Hlen.
  pose proof (seq2tokens_bounds_range rnd kmers seq_length true) as Hb.
  unfold seq2tokens_window.
  destruct (seq2tokens_bounds rnd kmers seq_length true) as [start end_].
  destruct Hb as (Hstart & -> & _). unfold Py.len in *.
  rewrite PyFacts.slice_nonneg by lia.
  replace (Z.to_nat (start + (seq_length - 1) - start))
    with (Z.to_nat (seq_length - 1)) by lia.
  exists (Z.to_nat start). split.
  - rewrite !take_drop_commute, take_take. by rewrite Nat.min_l by lia.
  - rewrite length_take, length_drop. lia.
Qed.

(** X5.  In window mode with [1 <= seq_length <= max_length], which
    holds for the default [max_length] and for every length drawn from
    [seq_len_like], nothing is cut: the result is ['[CLS]'], the whole
    encoded window, and padding. *)
Theorem seq2tokens_window_mode_keeps_window rnd seq token_dict seq_length
    max_length k stride seq_len_like cls unk pad L :
  token_dict !! "[CLS]" = Some cls →
  token_dict !! "[UNK]" = Some unk →
  token_dict !! "" = Some pad →
  seq2tokens_seq_length rnd seq_length max_length seq_len_like = Some L →
  1 ≤ L ≤ seq2tokens_max_length seq_length max_length →
  let words := seq2tokens_window rnd (seq2kmers seq k stride true) L true in
  seq2tokens seq2kmers rnd seq token_dict seq_length max_length k stride true
    seq_len_like
  = Some (cls :: ((λ w, default unk (token_dict !! w)) <$> words)
            ++ replicate
                 (Z.to_nat (seq2tokens_max_length seq_length max_length
                            - 1 - Py.len words)) pad,
          replicate (Z.to_nat (seq2tokens_max_length seq_length max_length)) 0).
Proof.
  intros Hcls Hunk Hpad HL HLM words.
  rewrite (seq2tokens_eval _ _ _ _ _ _ _ _ _ _ cls unk pad L) by done.
  fold words. 
  assert (Hw : Py.len words ≤ L - 1).
  { subst words. pose proof (seq2tokens_bounds_range rnd
      (seq2kmers seq k stride true) L true) as Hb.
    unfold seq2tokens_window.
    destruct (seq2tokens_bounds rnd _ L true) as [start end_].
    destruct Hb as (Hstart & -> & _). unfold Py.len.
    rewrite PyFacts.slice_nonneg by lia. rewrite length_take. lia. }
  unfold Py.repeat, Py.len in *. simpl length. rewrite length_fmap.
  f_equal. f_equal. case_bool_decide as Hlt.
  - simpl. do 3 f_equal. lia.
  - rewrite PyFacts.slice_prefix by lia.
    rewrite take_ge by (simpl; rewrite length_fmap; lia).
    replace (Z.to_nat _) with 0%nat by lia. simpl. by rewrite app_nil_r.
Qed.

(** When [seq_len_like] is given, the sampled length is one of its
    entries capped by [max_length]. *)
Lemma seq2tokens_seq_length_capped rnd seq_length max_length lens L :
  seq2tokens_seq_length rnd seq_length max_length (Some lens) = Some L →
  L ≤ seq2tokens_max_length seq_length max_length
  ∧ ∃ c, c ∈ lens ∧ L = Z.min (seq2tokens_max_length seq_length max_length) c.
Proof.
  unfold seq2tokens_seq_length.
  destruct (Py.random_choice _ lens) as [c|] eqn:Hc; [|done].
  intros [= <-]. split; [lia|]. exists c. split; [|done].
  by eapply PyFacts.random_choice_elem.
Qed.

End Seq2TokensMore.

Lemma seq2tokens_raises_iff_witness :
  sample_seq2kmers "ACGNNNTTT" 3 3 true = ["ACG"; "NNN"; "TTT"]
  ∧ seq2tokens sample_seq2kmers (Py.Draws 0 0) "ACGNNNTTT"
      (delete "[UNK]" sample_token_dict) 3 None 3 3 false None = None.
Proof.
  assert (H : sample_seq2kmers "ACGNNNTTT" 3 3 true = ["ACG"; "NNN"; "TTT"])
    by reflexivity.
  split; [exact H|].
  apply (seq2tokens_raises_iff sample_seq2kmers (Py.Draws 0 0) "ACGNNNTTT"
           (delete "[UNK]" sample_token_dict) 3 None 3 3 false None _ H).
  right. exists 3. split; [reflexivity|]. right. left.
  split; [vm_compute; reflexivity|].
  exists "NNN". split; [|vm_compute; reflexivity].
  assert (Hw : seq2tokens_window (Py.Draws 0 0) ["ACG"; "NNN"; "TTT"] 3 false
               = ["ACG"; "NNN"; "TTT"]) by reflexivity.
  rewrite Hw. apply elem_of_cons. right. apply elem_of_cons. left. reflexivity.
Defined.

Lemma seq2tokens_modes_agree_witness :
  1 ≤ 3
  ∧ sample_token_dict !! "[UNK]" = Some 1
  ∧ fst (seq2tokens_bounds (Py.Draws 0 2) (sample_seq2kmers sample_seq 3 3 true)
           3 true) = 0
  ∧ seq2tokens sample_seq2kmers (Py.Draws 0 2) sample_seq sample_token_dict
      3 None 3 3 true None
    = seq2tokens sample_seq2kmers (Py.Draws 5 7) sample_seq sample_token_dict
        3 None 3 3 false None.
Proof.
  assert (H1 : 1 ≤ 3) by lia.
  assert (H2 : sample_token_dict !! "[UNK]" = Some 1) by (vm_compute; reflexivity).
  assert (H3 : fst (seq2tokens_bounds (Py.Draws 0 2)
                      (sample_seq2kmers sample_seq 3 3 true) 3 true) = 0)
    by (vm_compute; reflexivity).
  split; [exact H1|]. split; [exact H2|]. split; [exact H3|].
  exact (seq2tokens_modes_agree sample_seq2kmers (Py.Draws 0 2) (Py.Draws 5 7)
           sample_seq sample_token_dict 3 3 3 1 H1 H2 H3).
Defined.

Lemma seq2tokens_indices_in_vocabulary_witness :
  seq2tokens sample_seq2kmers (Py.Draws 0 0) sample_seq sample_token_dict
    3 None 3 3 false None = Some ([2; 11; 65], [0; 0; 0])
  ∧ Forall (λ i, ∃ key, sample_token_dict !! key = Some i) [2; 11; 65].
Proof.
  assert (H : seq2tokens sample_seq2kmers (Py.Draws 0 0) sample_seq
                sample_token_dict 3 None 3 3 false None
              = Some ([2; 11; 65], [0; 0; 0])) by (vm_compute; reflexivity).
  split; [exact H|].
  exact (seq2tokens_indices_in_vocabulary sample_seq2kmers _ _ _ _ _ _ _ _ _ _ _ H).
Defined.

Lemma seq2tokens_window_skips_last_witness :
  1 ≤ 3
  ∧ 3 < Py.len (sample_seq2kmers sample_seq 3 3 true)
  ∧ Py.len (seq2tokens_window (Py.Draws 0 1)
              (sample_seq2kmers sample_seq 3 3 true) 3 true) = 3 - 1.
Proof.
  assert (H1 : 1 ≤ 3) by lia.
  assert (H2 : 3 < Py.len (sample_seq2kmers sample_seq 3 3 true))
    by (vm_compute; reflexivity).
  split; [exact H1|]. split; [exact H2|].
  destruct (seq2tokens_window_skips_last (Py.Draws 0 1)
              (sample_seq2kmers sample_seq 3 3 true) 3 H1 H2) as (start & _ & Hlen).
  exact Hlen.
Defined.

Lemma seq2tokens_window_mode_keeps_window_witness :
  sample_token_dict !! "[CLS]" = Some 2
  ∧ sample_token_dict !! "[UNK]" = Some 1
  ∧ sample_token_dict !! "" = Some 0
  ∧ seq2tokens_seq_length (Py.Draws 1 0) 3 (Some 6) (Some [2; 4]) = Some 4
  ∧ 1 ≤ 4 ≤ seq2tokens_max_length 3 (Some 6)
  ∧ seq2tokens sample_seq2kmers (Py.Draws 1 0) sample_seq sample_token_dict
      3 (Some 6) 3 3 true (Some [2; 4])
    = Some ([2; 11; 65; 46; 0; 0], [0; 0; 0; 0; 0; 0]).
Proof.
  assert (H1 : sample_token_dict !! "[CLS]" = Some 2) by (vm_compute; reflexivity).
  assert (H2 : sample_token_dict !! "[UNK]" = Some 1) by (vm_compute; reflexivity).
  assert (H3 : sample_token_dict !! "" = Some 0) by (vm_compute; reflexivity).
  assert (H4 : seq2tokens_seq_length (Py.Draws 1 0) 3 (Some 6) (Some [2; 4]) = Some 4)
    by reflexivity.
  assert (H5 : 1 ≤ 4 ≤ seq2tokens_max_length 3 (Some 6))
    by (unfold seq2tokens_max_length; simpl; lia).
  split; [exact H1|]. split; [exact H2|]. split; [exact H3|].
  split; [exact H4|]. split; [exact H5|].
  rewrite (seq2tokens_window_mode_keeps_window sample_seq2kmers (Py.Draws 1 0)
             sample_seq sample_token_dict 3 (Some 6) 3 3 (Some [2; 4]) 2 1 0 4
             H1 H2 H3 H4 H5).
  vm_compute. reflexivity.
Defined.

(** ** Vocabulary construction: size, indices and degenerate arguments *)

Section ProductMore.

Context {A : Type} `{EqDecision A}.
Implicit Types (alph w : list A).

Lemma length_product alph (k : nat) :
  length (product alph k) = (length alph ^ k)%nat.
Proof.
  induction k as [|k IH]; [done|]. simpl.
  generalize (product alph k) IH. intros words <-. clear.
  induction alph as [|c alph IH]; [done|].
  rewrite bind_cons, length_app, length_fmap, IH. simpl. lia.
Qed.

(** The lookup in a concatenation of blocks of one length. *)
Lemma bind_lookup_uniform {B} (f : A → list B) (m : nat) (l : list A) (j i : nat) :
  (∀ x, x ∈ l → length (f x) = m) → (i < m)%nat →
  (l ≫= f) !! (j * m + i)%nat = l !! j ≫= λ x, f x !! i.
Proof.
  revert j. induction l as [|x l IH]; intros j Hlen Hi; [done|].
  rewrite bind_cons.
  assert (Hx : length (f x) = m) by (apply Hlen; left).
  destruct j as [|j]; simpl.
  - by rewrite lookup_app_l by lia.
  - rewrite lookup_app_r by lia. rewrite Hx.
    replace (m + j * m + i - m)%nat with (j * m + i)%nat by lia.
    apply IH; [|done]. intros y Hy. apply Hlen. by right.
Qed.

Lemma symbol_index_lookup alph c : c ∈ alph → alph !! symbol_index alph c = Some c.
Proof.
  intros Hc. unfold symbol_index.
  destruct (list_find_elem_of (λ a, a = c) alph c Hc eq_refl) as [[i x] Hfind].
  rewrite Hfind. simpl. by apply list_find_Some in Hfind as (Hi & -> & _).
Qed.

(** A word over the alphabet sits in the enumeration at the place that
    is its value as a number in base [len(alph)]. *)
Lemma product_lookup_rank alph w :
  Forall (λ c, c ∈ alph) w →
  product alph (length w) !! word_rank alph w = Some w.
Proof.
  induction w as [|c w IH]; intros Hw; [done|].
  apply Forall_cons in Hw as [Hc Hw]. specialize (IH Hw). simpl.
  rewrite (bind_lookup_uniform _ (length alph ^ length w)).
  - rewrite symbol_index_lookup by done. simpl.
    by rewrite list_lookup_fmap, IH.
  - intros x _. by rewrite length_fmap, length_product.
  - apply lookup_lt_Some in IH. by rewrite length_product in IH.
Qed.

End ProductMore.

Lemma length_kmer_words alph (k : nat) :
  length (kmer_words alph k) = (String.length alph ^ k)%nat.
Proof.
  unfold kmer_words.
  by rewrite length_fmap, length_product, <- string_length_chars.
Qed.

Lemma kmer_words_lookup_rank alph (k : nat) w :
  is_kmer alph k w →
  kmer_words alph k
    !! word_rank (String.list_ascii_of_string alph) (String.list_ascii_of_string w)
  = Some w.
Proof.
  intros [Hlen Hall]. unfold kmer_words. rewrite list_lookup_fmap.
  rewrite <- Hlen, string_length_chars, product_lookup_rank by done.
  simpl. by rewrite String.string_of_list_ascii_of_string.
Qed.

Lemma add_words_size (token_dict : gmap string Z) words :
  NoDup words → (∀ w, w ∈ words → token_dict !! w = None) →
  size (foldl add_word token_dict words) = (size token_dict + length words)%nat.
Proof.
  revert token_dict.
  induction words as [|a words IH]; intros token_dict Hnd Hnew; simpl; [lia|].
  apply NoDup_cons in Hnd as [Ha Hnd].
  rewrite IH; [| done |].
  - unfold add_word. rewrite map_size_insert_None; [lia|]. apply Hnew. by left.
  - intros w Hw. unfold add_word. rewrite lookup_insert_ne.
    + apply Hnew. by right.
    + intros ->. done.
Qed.

Section TokenDictMore.

Variable base_dict : gmap string Z.

(** X6.  For [k >= 0] and any alphabet, repeated symbols and words
    that are special tokens included, the keys of the result are the
    keys of the base dictionary and the length-[k] strings over the
    alphabet, nothing else. *)
Theorem get_token_dict_keys alph k :
  0 ≤ k →
  ∃ token_dict,
    get_token_dict base_dict alph k = Some token_dict
    ∧ ∀ w, is_Some (token_dict !! w)
           ↔ is_Some (base_dict !! w) ∨ is_kmer alph (Z.to_nat k) w.
Proof.
  intros Hk. eexists. split.
  - unfold get_token_dict. by rewrite bool_decide_eq_false_2 by lia.
  - intros w. by rewrite add_words_is_Some, elem_of_kmer_words.
Qed.

(** X7.  For an alphabet without repeated symbols none of whose k-mers
    is a key of the base dictionary, the vocabulary has
    [len(base) + len(alph) ** k] entries. *)
Theorem get_token_dict_size alph k :
  0 ≤ k →
  NoDup (String.list_ascii_of_string alph) →
  (∀ w, is_kmer alph (Z.to_nat k) w → base_dict !! w = None) →
  ∃ token_dict,
    get_token_dict base_dict alph k = Some token_dict
    ∧ size token_dict = (size base_dict + String.length alph ^ Z.to_nat k)%nat.
Proof.
  intros Hk Halph Hnew. eexists. split.
  - unfold get_token_dict. by rewrite bool_decide_eq_false_2 by lia.
  - rewrite add_words_size, length_kmer_words; [done | |].
    + by apply NoDup_kmer_words.
    + intros w Hw. by apply Hnew, elem_of_kmer_words.
Qed.

(** X8.  Under the same conditions, and with base indices below the
    size of the base dictionary, every index of the vocabulary is a row
    of a table with [len(token_dict)] rows, and every row from
    [len(base)] on is the index of a k-mer. *)
Theorem get_token_dict_index_range alph k :
  0 ≤ k →
  NoDup (String.list_ascii_of_string alph) →
  (∀ w, is_kmer alph (Z.to_nat k) w → base_dict !! w = None) →
  (∀ w i, base_dict !! w = Some i → 0 ≤ i < Z.of_nat (size base_dict)) →
  ∃ token_dict,
    get_token_dict base_dict alph k = Some token_dict
    ∧ (∀ w i, token_dict !! w = Some i → 0 ≤ i < Z.of_nat (size token_dict))
    ∧ (∀ i, Z.of_nat (size base_dict) ≤ i < Z.of_nat (size token_dict) →
         ∃ w, is_kmer alph (Z.to_nat k) w ∧ token_dict !! w = Some i).
Proof.
  intros Hk Halph Hnew Hrange.
  set (words := kmer_words alph (Z.to_nat k)).
  assert (Hnd : NoDup words) by by apply NoDup_kmer_words.
  assert (Hnew' : ∀ w, w ∈ words → base_dict !! w = None).
  { intros w Hw. by apply Hnew, elem_of_kmer_words. }
  pose proof (add_words_size base_dict words Hnd Hnew') as Hsize.
  pose proof (add_words_fresh base_dict words Hnd Hnew') as Hfresh.
  exists (foldl add_word base_dict words). split.
  { unfold get_token_dict. by rewrite bool_decide_eq_false_2 by lia. }
  split.
  - intros w i Hw. destruct (decide (w ∈ words)) as [Hin|Hout].
    + apply list_elem_of_lookup in Hin as [n Hn].
      rewrite (Hfresh n w Hn) in Hw. injection Hw as <-.
      apply lookup_lt_Some in Hn. lia.
    + rewrite add_words_other in Hw by done. apply Hrange in Hw. lia.
  - intros i Hi.
    destruct (lookup_lt_is_Some_2 words (Z.to_nat i - size base_dict)) as [w Hw];
      [lia|].
    exists w. split.
    + apply elem_of_kmer_words. by eapply list_elem_of_lookup_2.
    + rewrite (Hfresh _ w Hw). f_equal. lia.
Qed.

(** X9.  Under the same conditions the index of a k-mer is
    [len(base)] plus the value of the word as a number in base
    [len(alph)], the symbols being digits in the order of the alphabet
    and the first symbol the most significant. *)
Theorem get_token_dict_index_is_rank alph k w :
  0 ≤ k →
  NoDup (String.list_ascii_of_string alph) →
  (∀ w, is_kmer alph (Z.to_nat k) w → base_dict !! w = None) →
  is_kmer alph (Z.to_nat k) w →
  ∃ token_dict,
    get_token_dict base_dict alph k = Some token_dict
    ∧ token_dict !! w
      = Some (Z.of_nat (size base_dict
                        + word_rank (String.list_ascii_of_string alph)
                            (String.list_ascii_of_string w))).
Proof.
  intros Hk Halph Hnew Hw. eexists. split.
  - unfold get_token_dict. by rewrite bool_decide_eq_false_2 by lia.
  - apply add_words_fresh.
    + by apply NoDup_kmer_words.
    + intros w' Hw'. by apply Hnew, elem_of_kmer_words.
    + by apply kmer_words_lookup_rank.
Qed.

(** X10.  Degenerate arguments.  An empty alphabet with [k >= 1] has no
    words and the base dictionary comes back unchanged.  With [k = 0]
    the only word is the empty string, which is the padding token: it
    is given the index [len(base)], also when the base dictionary
    already has it. *)
Theorem get_token_dict_degenerate :
  (∀ k, 1 ≤ k → get_token_dict base_dict "" k = Some base_dict)
  ∧ (∀ alph,
       get_token_dict base_dict alph 0
       = Some (<["" := Z.of_nat (size base_dict)]> base_dict)).
Proof.
  split.
  - intros k Hk. unfold get_token_dict. rewrite bool_decide_eq_false_2 by lia.
    destruct (Z.to_nat k) as [|n] eqn:Hn; [lia|]. done.
  - intros alph. done.
Qed.

(** X12.  Encoding with the generated vocabulary.  Under the same
    conditions and with ['[UNK]'] in the base dictionary, a k-mer over
    the alphabet is never encoded as unknown: it gets an index of its
    own from [len(base)] on.  A word that is neither a k-mer over the
    alphabet nor a special token gets the index of ['[UNK]']. *)
Theorem encode_word_generated_vocabulary alph k unk :
  0 ≤ k →
  NoDup (String.list_ascii_of_string alph) →
  (∀ w, is_kmer alph (Z.to_nat k) w → base_dict !! w = None) →
  (∀ w i, base_dict !! w = Some i → 0 ≤ i < Z.of_nat (size base_dict)) →
  base_dict !! "[UNK]" = Some unk →
  ∃ token_dict,
    get_token_dict base_dict alph k = Some token_dict
    ∧ (∀ w, is_kmer alph (Z.to_nat k) w →
         ∃ i, encode_word token_dict w = Some i
              ∧ token_dict !! w = Some i
              ∧ Z.of_nat (size base_dict) ≤ i ∧ i ≠ unk)
    ∧ (∀ w, ¬ is_kmer alph (Z.to_nat k) w → base_dict !! w = None →
         encode_word token_dict w = Some unk).
Proof.
  intros Hk Halph Hnew Hrange Hunk.
  set (words := kmer_words alph (Z.to_nat k)).
  assert (Hnd : NoDup words) by by apply NoDup_kmer_words.
  assert (Hnew' : ∀ w, w ∈ words → base_dict !! w = None).
  { intros w Hw. by apply Hnew, elem_of_kmer_words. }
  pose proof (add_words_fresh base_dict words Hnd Hnew') as Hfresh.
  exists (foldl add_word base_dict words). split.
  { unfold get_token_dict. by rewrite bool_decide_eq_false_2 by lia. }
  split.
  - intros w Hw. apply elem_of_kmer_words, list_elem_of_lookup in Hw as [n Hn].
    exists (Z.of_nat (size base_dict + n)). specialize (Hfresh n w Hn).
    unfold encode_word. rewrite Hfresh. split; [done|]. split; [done|].
    apply Hrange in Hunk. lia.
  - intros w Hw Hbase. unfold encode_word.
    rewrite (add_words_other _ _ w), Hbase.
    + rewrite add_words_other; [done|].
      intros Hin. apply Hnew' in Hin. congruence.
    + intros Hin. by apply Hw, elem_of_kmer_words.
Qed.

End TokenDictMore.

(** X11.  Assigning a word that is already a key does not grow the
    dictionary, so the word that is inserted next, if it is new, gets
    the same index. *)
Theorem add_word_existing_key_collides (token_dict : gmap string Z) w w' :
  is_Some (token_dict !! w) →
  token_dict !! w' = None →
  foldl add_word token_dict [w; w'] !! w = Some (Z.of_nat (size token_dict))
  ∧ foldl add_word token_dict [w; w'] !! w' = Some (Z.of_nat (size token_dict)).
Proof.
  intros [i Hw] Hw'. simpl. unfold add_word.
  assert (Hne : w' ≠ w) by congruence.
  rewrite (map_size_insert_Some w) by eauto.
  rewrite lookup_insert_eq, lookup_insert_ne, lookup_insert_eq by done. done.
Qed.

(** The k-mers over ['ACGT'] are not special tokens, and the special
    tokens are numbered from 0 to 4. *)
Lemma sample_base_dict_fresh (k : nat) w :
  (1 ≤ k)%nat → is_kmer "ACGT" k w → sample_base_dict !! w = None.
Proof.
  intros Hk [Hlen Hall]. destruct w as [|c w]; [simpl in Hlen; lia|].
  simpl in Hall. apply Forall_cons in Hall as [Hc _].
  unfold sample_base_dict.
  rewrite !lookup_insert_ne, lookup_empty; [done|..]; intros Heq;
    try discriminate Heq; injection Heq as <- _;
    repeat (apply elem_of_cons in Hc as [Hc|Hc]; [discriminate|]);
    by apply elem_of_nil in Hc.
Qed.

Lemma sample_base_dict_range w i :
  sample_base_dict !! w = Some i → 0 ≤ i < Z.of_nat (size sample_base_dict).
Proof.
  unfold sample_base_dict. rewrite !lookup_insert, lookup_empty.
  repeat case_decide; intros [= <-]; vm_compute; split; congruence.
Qed.

Lemma is_kmer_ACG : is_kmer "ACGT" 3 "ACG".
Proof.
  split; [reflexivity|]. apply (bool_decide_unpack _). vm_compute. exact I.
Qed.

Lemma get_token_dict_keys_witness :
  0 ≤ 1
  ∧ ∃ token_dict,
      get_token_dict sample_base_dict "AAC" 1 = Some token_dict
      ∧ is_Some (token_dict !! "A") ∧ is_Some (token_dict !! "[SEP]").
Proof.
  assert (H : 0 ≤ 1) by lia. split; [exact H|].
  destruct (get_token_dict_keys sample_base_dict "AAC" 1 H) as (td & Hrun & Hkeys).
  exists td. split; [exact Hrun|]. split.
  - apply Hkeys. right. split; [reflexivity|].
    apply (bool_decide_unpack _). vm_compute. exact I.
  - apply Hkeys. left. vm_compute. eexists. reflexivity.
Defined.

Lemma get_token_dict_size_witness :
  0 ≤ 3
  ∧ NoDup (String.list_ascii_of_string "ACGT")
  ∧ ∃ token_dict,
      get_token_dict sample_base_dict "ACGT" 3 = Some token_dict
      ∧ size token_dict = 69%nat.
Proof.
  assert (H0 : 0 ≤ 3) by lia.
  assert (H1 : NoDup (String.list_ascii_of_string "ACGT")).
  { apply (bool_decide_unpack _). vm_compute. exact I. }
  split; [exact H0|]. split; [exact H1|].
  destruct (get_token_dict_size sample_base_dict "ACGT" 3 H0 H1)
    as (td & Hrun & Hsize).
  - intros w. apply sample_base_dict_fresh. simpl. lia.
  - exists td. split; [exact Hrun|]. rewrite Hsize. vm_compute. reflexivity.
Defined.

Lemma get_token_dict_index_range_witness :
  0 ≤ 3
  ∧ NoDup (String.list_ascii_of_string "ACGT")
  ∧ ∃ token_dict,
      get_token_dict sample_base_dict "ACGT" 3 = Some token_dict
      ∧ ∃ w, is_kmer "ACGT" 3 w ∧ token_dict !! w = Some 68.
Proof.
  assert (H0 : 0 ≤ 3) by lia.
  assert (H1 : NoDup (String.list_ascii_of_string "ACGT")).
  { apply (bool_decide_unpack _). vm_compute. exact I. }
  split; [exact H0|]. split; [exact H1|].
  destruct (get_token_dict_index_range sample_base_dict "ACGT" 3 H0 H1)
    as (td & Hrun & Hrows & Honto).
  - intros w. apply sample_base_dict_fresh. simpl. lia.
  - apply sample_base_dict_range.
  - exists td. split; [exact Hrun|]. apply Honto.
    assert (Hsize : (td' ← get_token_dict sample_base_dict "ACGT" 3;
                     Some (size td')) = Some 69%nat) by (vm_compute; reflexivity).
    rewrite Hrun in Hsize. injection Hsize as Hsize.
    rewrite Hsize. split; [vm_compute; discriminate | vm_compute; reflexivity].
Defined.

Lemma get_token_dict_index_is_rank_witness :
  0 ≤ 3
  ∧ NoDup (String.list_ascii_of_string "ACGT")
  ∧ is_kmer "ACGT" 3 "ACG"
  ∧ ∃ token_dict,
      get_token_dict sample_base_dict "ACGT" 3 = Some token_dict
      ∧ token_dict !! "ACG" = Some 11.
Proof.
  assert (H0 : 0 ≤ 3) by lia.
  assert (H1 : NoDup (String.list_ascii_of_string "ACGT")).
  { apply (bool_decide_unpack _). vm_compute. exact I. }
  split; [exact H0|]. split; [exact H1|]. split; [exact is_kmer_ACG|].
  destruct (get_token_dict_index_is_rank sample_base_dict "ACGT" 3 "ACG" H0 H1)
    as (td & Hrun & Hidx).
  - intros w. apply sample_base_dict_fresh. simpl. lia.
  - exact is_kmer_ACG.
  - exists td. split; [exact Hrun|]. rewrite Hidx. vm_compute. reflexivity.
Defined.

Lemma encode_word_generated_vocabulary_witness :
  0 ≤ 3
  ∧ NoDup (String.list_ascii_of_string "ACGT")
  ∧ sample_base_dict !! "[UNK]" = Some 1
  ∧ ∃ token_dict,
      get_token_dict sample_base_dict "ACGT" 3 = Some token_dict
      ∧ encode_word token_dict "ACN" = Some 1
      ∧ ∃ i, encode_word token_dict "ACG" = Some i ∧ i ≠ 1.
Proof.
  assert (H0 : 0 ≤ 3) by lia.
  assert (H1 : NoDup (String.list_ascii_of_string "ACGT")).
  { apply (bool_decide_unpack _). vm_compute. exact I. }
  assert (H2 : sample_base_dict !! "[UNK]" = Some 1) by (vm_compute; reflexivity).
  split; [exact H0|]. split; [exact H1|]. split; [exact H2|].
  destruct (encode_word_generated_vocabulary sample_base_dict "ACGT" 3 1 H0 H1)
    as (td & Hrun & Hkmer & Hother).
  - intros w. apply sample_base_dict_fresh. simpl. lia.
  - apply sample_base_dict_range.
  - exact H2.
  - exists td. split; [exact Hrun|]. split.
    + apply Hother; [|vm_compute; reflexivity].
      intros [_ Hall]. apply (bool_decide_pack _) in Hall.
      vm_compute in Hall. exact Hall.
    + destruct (Hkmer "ACG" is_kmer_ACG) as (i & Henc & _ & _ & Hne).
      exists i. split; [exact Henc | exact Hne].
Defined.

Lemma add_word_existing_key_collides_witness :
  is_Some (sample_base_dict !! "[UNK]")
  ∧ sample_base_dict !! "ACG" = None
  ∧ foldl add_word sample_base_dict ["[UNK]"; "ACG"] !! "[UNK]" = Some 5
  ∧ foldl add_word sample_base_dict ["[UNK]"; "ACG"] !! "ACG" = Some 5.
Proof.
  assert (H1 : is_Some (sample_base_dict !! "[UNK]"))
    by (vm_compute; eexists; reflexivity).
  assert (H2 : sample_base_dict !! "ACG" = None) by (vm_compute; reflexivity).
  split; [exact H1|]. split; [exact H2|].
  exact (add_word_existing_key_collides sample_base_dict "[UNK]" "ACG" H1 H2).
Defined.

(** ** Batching *)

Section BatchMore.

Variable seq2kmers : string → Z → Z → bool → list string.

(** Both arrays of a run that returns have [max_length] entries. *)
Lemma seq2tokens_Some_lengths rnd seq token_dict seq_length max_length k stride
    window seq_len_like indices segments :
  0 ≤ seq2tokens_max_length seq_length max_length →
  seq2tokens seq2kmers rnd seq token_dict seq_length max_length k stride window
    seq_len_like = Some (indices, segments) →
  Py.len indices = seq2tokens_max_length seq_length max_length
  ∧ segments = replicate (Z.to_nat (seq2tokens_max_length seq_length max_length)) 0.
Proof.
  intros HM (L & cls & body & _ & _ & _ & Hfit & ->)%seq2tokens_Some_inv.
  split; [|done]. unfold seq2tokens_fit in Hfit. case_bool_decide as Hlt.
  - destruct (token_dict !! "") as [pad|]; [|done]. injection Hfit as <-.
    unfold Py.len, Py.repeat in *. simpl length in *.
    rewrite length_app, length_replicate. lia.
  - injection Hfit as <-. rewrite PyFacts.slice_prefix by done.
    unfold Py.len in *. rewrite length_take. lia.
Qed.

(** X13.  A batch of [seq2tokens] results that were made with the same
    [seq_length] and [max_length] becomes two rectangular arrays: one
    row per item, every row of tokens [max_length] long, every row of
    segments [max_length] zeros. *)
Theorem process_bert_tokens_batch_rectangular seq_length max_length
    (batch_x : list (list Z * list Z)) :
  0 ≤ seq2tokens_max_length seq_length max_length →
  Forall (λ item,
            ∃ rnd seq token_dict k stride window seq_len_like,
              seq2tokens seq2kmers rnd seq token_dict seq_length max_length
                k stride window seq_len_like = Some item) batch_x →
  length (process_bert_tokens_batch batch_x).1 = length batch_x
  ∧ length (process_bert_tokens_batch batch_x).2 = length batch_x
  ∧ Forall (λ row, Py.len row = seq2tokens_max_length seq_length max_length)
      (process_bert_tokens_batch batch_x).1
  ∧ Forall (λ row,
              row = replicate
                      (Z.to_nat (seq2tokens_max_length seq_length max_length)) 0)
      (process_bert_tokens_batch batch_x).2.
Proof.
  intros HM Hitems. unfold process_bert_tokens_batch. simpl.
  rewrite !length_fmap. split; [done|]. split; [done|].
  rewrite !Forall_fmap. split.
  - eapply Forall_impl; [exact Hitems|].
    intros [indices segments] (rnd & seq & td & k & stride & window & sll & Hrun).
    simpl. by eapply seq2tokens_Some_lengths.
  - eapply Forall_impl; [exact Hitems|].
    intros [indices segments] (rnd & seq & td & k & stride & window & sll & Hrun).
    simpl. by eapply seq2tokens_Some_lengths.
Qed.

End BatchMore.

(** [process_bert_tokens_batch] keeps the order of the batch and
    loses nothing: row [i] of each output is the array of item [i], and
    pairing the rows up again gives the batch back. *)
Lemma process_bert_tokens_batch_rows (batch_x : list (list Z * list Z)) :
  (∀ i : nat,
     (process_bert_tokens_batch batch_x).1 !! i = fst <$> batch_x !! i
     ∧ (process_bert_tokens_batch batch_x).2 !! i = snd <$> batch_x !! i)
  ∧ zip (process_bert_tokens_batch batch_x).1 (process_bert_tokens_batch batch_x).2
    = batch_x.
Proof.
  unfold process_bert_tokens_batch. simpl. split.
  - intros i. by rewrite !list_lookup_fmap.
  - apply zip_fst_snd.
Qed.

Lemma process_bert_tokens_batch_rectangular_witness :
  0 ≤ seq2tokens_max_length 3 None
  ∧ Forall (λ row, Py.len row = 3)
      (process_bert_tokens_batch
         [([2; 11; 65], [0; 0; 0]); ([2; 65; 46], [0; 0; 0])]).1.
Proof.
  assert (H0 : 0 ≤ seq2tokens_max_length 3 None)
    by (unfold seq2tokens_max_length; simpl; lia).
  split; [exact H0|].
  apply (process_bert_tokens_batch_rectangular sample_seq2kmers 3 None _ H0).
  repeat apply Forall_cons_2; [| |apply Forall_nil_2].
  - exists (Py.Draws 0 0), sample_seq, sample_token_dict, 3, 3, true, None.
    vm_compute. reflexivity.
  - exists (Py.Draws 0 1), sample_seq, sample_token_dict, 3, 3, true, None.
    vm_compute. reflexivity.
Defined.

(** ** Classification heads: one head, three heads *)

Section HeadsMore.

Variable load_model : string → bool → option loaded_model.
Variable dense_name : string.

(** X14.  When the checkpoint does not load, or loads without a layer
    named ['NSP-Dense'], both builders raise, whatever the numbers of
    classes. *)
Theorem generate_bert_raises_without_trunk pretrained_path nr_classes
    multi_nr_classes :
  (∀ model, load_model pretrained_path false = Some model →
            model_layers model !! "NSP-Dense" = None) →
  generate_bert_with_pretrained load_model dense_name pretrained_path nr_classes
  = None
  ∧ generate_bert_with_pretrained_multi_tax (λ path, load_model path false)
      pretrained_path multi_nr_classes = None.
Proof.
  intros Hmissing.
  unfold generate_bert_with_pretrained, generate_bert_with_pretrained_multi_tax,
    load_bert.
  destruct (load_model pretrained_path false) as [model|]; simpl; [|done].
  by rewrite (Hmissing model eq_refl).
Qed.

(** X15.  On a checkpoint that loads and has ['NSP-Dense'], the single
    head is built like the superkingdom head of the three-head model:
    a softmax [Dense] layer applied to the trunk output itself.  Both
    models take the same inputs, the first two of the checkpoint, and
    the single-head model outputs [nr_classes] values. *)
Theorem generate_bert_single_and_multi pretrained_path nr_classes superkingdoms
    families species model nsp :
  load_model pretrained_path false = Some model →
  model_layers model !! "NSP-Dense" = Some nsp →
  ∃ single multi rest,
    generate_bert_with_pretrained load_model dense_name pretrained_path nr_classes
    = Some single
    ∧ generate_bert_with_pretrained_multi_tax (λ path, load_model path false)
        pretrained_path (superkingdoms, families, species) = Some multi
    ∧ inputs single = take 2 (model_inputs model)
    ∧ inputs multi = inputs single
    ∧ outputs single = Dense nr_classes "softmax" dense_name nsp
    ∧ tensor_width (outputs single) = nr_classes
    ∧ outputs multi
      = Concatenate
          (Dense superkingdoms "softmax" "superkingdoms_softmax" nsp :: rest).
Proof.
  intros Hload Hnsp.
  unfold generate_bert_with_pretrained, generate_bert_with_pretrained_multi_tax,
    load_bert.
  rewrite Hload. simpl. rewrite Hnsp. simpl.
  eexists _, _, _. split; [done|]. split; [done|]. simpl.
  split; [by apply PyFacts.slice_prefix|]. done.
Qed.

(** X16.  The width of what each head of the three-head model reads:
    the trunk width for the first head, the trunk width plus the
    number of superkingdoms for the second, the trunk width plus the
    number of families for the third.  The third head does not read
    the superkingdom prediction. *)
Theorem multi_tax_head_input_widths pretrained_path superkingdoms families species
    model nsp :
  load_model pretrained_path false = Some model →
  model_layers model !! "NSP-Dense" = Some nsp →
  ∃ multi head1 head2 head3,
    generate_bert_with_pretrained_multi_tax (λ path, load_model path false)
      pretrained_path (superkingdoms, families, species) = Some multi
    ∧ outputs multi = Concatenate [head1; head2; head3]
    ∧ tensor_width <$> head_input head1 = Some (tensor_width nsp)
    ∧ tensor_width <$> head_input head2 = Some (tensor_width nsp + superkingdoms)
    ∧ tensor_width <$> head_input head3 = Some (tensor_width nsp + families).
Proof.
  intros Hload Hnsp. unfold generate_bert_with_pretrained_multi_tax.
  rewrite Hload. simpl. rewrite Hnsp. simpl.
  eexists _, _, _, _. split; [done|]. split; [done|]. simpl.
  split; [done|]. split; f_equal; lia.
Qed.

End HeadsMore.

Lemma generate_bert_raises_without_trunk_witness :
  (∀ model, sample_load_model "other.h5" = Some model →
            model_layers model !! "NSP-Dense" = None)
  ∧ generate_bert_with_pretrained (λ path _, sample_load_model path) "dense"
      "other.h5" 4 = None
  ∧ generate_bert_with_pretrained_multi_tax sample_load_model "other.h5"
      (4, 30, 100) = None.
Proof.
  assert (H : ∀ model, sample_load_model "other.h5" = Some model →
                       model_layers model !! "NSP-Dense" = None).
  { intros model Hload. vm_compute in Hload. discriminate Hload. }
  split; [exact H|].
  exact (generate_bert_raises_without_trunk (λ path _, sample_load_model path)
           "dense" "other.h5" 4 (4, 30, 100) H).
Defined.

Lemma generate_bert_single_and_multi_witness :
  sample_load_model "bert.h5" = Some sample_checkpoint
  ∧ model_layers sample_checkpoint !! "NSP-Dense" = Some (Pretrained "NSP-Dense" 768)
  ∧ generate_bert_with_pretrained (λ path _, sample_load_model path) "dense"
      "bert.h5" 4
    = Some (KerasModel
              [Pretrained "Input-Token" 512; Pretrained "Input-Segment" 512]
              (Dense 4 "softmax" "dense" (Pretrained "NSP-Dense" 768))).
Proof.
  assert (H1 : sample_load_model "bert.h5" = Some sample_checkpoint) by reflexivity.
  assert (H2 : model_layers sample_checkpoint !! "NSP-Dense"
               = Some (Pretrained "NSP-Dense" 768)) by (vm_compute; reflexivity).
  split; [exact H1|]. split; [exact H2|].
  destruct (generate_bert_single_and_multi (λ path _, sample_load_model path)
              "dense" "bert.h5" 4 4 30 100 _ _ H1 H2)
    as (single & multi & rest & Hsingle & _ & Hin & _ & Hout & _).
  rewrite Hsingle. destruct single as [ins out]. simpl in Hin, Hout.
  rewrite Hin, Hout. vm_compute. reflexivity.
Defined.

Lemma multi_tax_head_input_widths_witness :
  sample_load_model "bert.h5" = Some sample_checkpoint
  ∧ model_layers sample_checkpoint !! "NSP-Dense" = Some (Pretrained "NSP-Dense" 768)
  ∧ ∃ multi head1 head2 head3,
      generate_bert_with_pretrained_multi_tax sample_load_model "bert.h5"
        (4, 30, 100) = Some multi
      ∧ outputs multi = Concatenate [head1; head2; head3]
      ∧ tensor_width <$> head_input head2 = Some 772
      ∧ tensor_width <$> head_input head3 = Some 798.
Proof.
  assert (H1 : sample_load_model "bert.h5" = Some sample_checkpoint) by reflexivity.
  assert (H2 : model_layers sample_checkpoint !! "NSP-Dense"
               = Some (Pretrained "NSP-Dense" 768)) by (vm_compute; reflexivity).
  split; [exact H1|]. split; [exact H2|].
  destruct (multi_tax_head_input_widths (λ path _, sample_load_model path)
              "bert.h5" 4 30 100 _ _ H1 H2)
    as (multi & h1 & h2 & h3 & Hrun & Hout & _ & Hw2 & Hw3).
  exists multi, h1, h2, h3. split; [exact Hrun|]. split; [exact Hout|].
  split; [exact Hw2 | exact Hw3].
Defined.

(** ** Prediction: targets without a prediction *)

Section PredictMore.

Context {model generator metric target pred classes X : Type}.
Variable PredictGenerator : generator → bool → generator.
Variable model_predict : model → generator → Z → list pred * generator.
Variable get_targets : generator → list target.
Variable get_x : generator → X.
Variable is_compiled : model → bool.
Variable accuracy : list target → list pred → metric.
Variable loss : list target → list pred → metric.
Variable compute_roc_auc : list target → list pred → option classes → metric.

(** X17.  The targets are cut to the number of predictions before
    anything is computed: with [return_data] the returned targets are
    the first [len(preds)] targets, never more than there are
    predictions; and when the model predicts nothing there are no
    metrics, however many targets the generator holds. *)
Theorem predict_cuts_targets (m : model) test_generator roc_auc
    (classes_ : option classes) (store_x nonverbose : bool) :
  let run := model_predict m (PredictGenerator test_generator store_x)
               (if nonverbose then 0 else 1) in
  let r := predict PredictGenerator model_predict get_targets get_x is_compiled
             accuracy loss compute_roc_auc
             m test_generator roc_auc classes_ true store_x nonverbose in
  data r = Some (take (length (fst run)) (get_targets (snd run)), (fst run))
  ∧ (length (take (length (fst run)) (get_targets (snd run)))
     = length (fst run) `min` length (get_targets (snd run)))%nat
  ∧ ((fst run) = [] → metrics r = [] ∧ metrics_names r = []).
Proof.
  intros run r. subst r. unfold predict. fold run.
  destruct run as [preds g]. simpl.
  rewrite PyFacts.slice_prefix by (unfold Py.len; lia). unfold Py.len.
  rewrite Nat2Z.id. split; [|split].
  - by destruct (bool_decide _), (is_compiled m), roc_auc.
  - apply length_take.
  - intros ->. done.
Qed.

End PredictMore.

(** ** Class weights: keys, bounds, order and thresholds *)

Lemma dict_sum_nonneg (d : gmap string Z) :
  map_Forall (λ _ v, 0 ≤ v) d → 0 ≤ dict_sum d.
Proof.
  induction d as [|key v d Hkey IH] using map_ind; intros Hd.
  - by rewrite dict_sum_empty.
  - rewrite dict_sum_insert by done.
    apply map_Forall_insert in Hd as [Hv Hd]; [|done].
    specialize (IH Hd). simpl in Hv. lia.
Qed.

Lemma dict_sum_lookup_le (d : gmap string Z) key v :
  map_Forall (λ _ v, 0 ≤ v) d → d !! key = Some v → v ≤ dict_sum d.
Proof.
  intros Hd Hkey. rewrite (dict_sum_delete d key v Hkey).
  pose proof (dict_sum_nonneg (delete key d) (map_Forall_delete _ _ _ Hd)). lia.
Qed.

Lemma kept_classes_Some thr (d : gmap string Z) key v :
  kept_classes thr d !! key = Some v ↔ d !! key = Some v ∧ thr ≤ v.
Proof.
  rewrite kept_classes_lookup. destruct (d !! key) as [v'|]; simpl.
  - case_bool_decide; split; [done | intros [[= ->] ?]; lia
                              | intros [= ->]; split; [done | lia]
                              | by intros [[= ->] _]].
  - split; [done | by intros [? _]].
Qed.

Lemma low_classes_Some thr (d : gmap string Z) key v :
  low_classes thr d !! key = Some v ↔ d !! key = Some v ∧ v < thr.
Proof.
  rewrite low_classes_lookup. destruct (d !! key) as [v'|]; simpl.
  - case_bool_decide; split; [intros [= ->]; by split | by intros [[= ->] _]
                              | done | intros [[= ->] ?]; lia].
  - split; [done | by intros [? _]].
Qed.

Lemma truediv_ge_one n v : 1 ≤ v ≤ n → (1 <= inject_Z n / inject_Z v)%Q.
Proof.
  intros [Hv Hn]. apply Qle_shift_div_l.
  - change 0%Q with (inject_Z 0). rewrite <- Zlt_Qlt. lia.
  - rewrite Qmult_1_l, <- Zle_Qle. done.
Qed.

Lemma occurrences_Permutation key (names names' : list string) :
  names ≡ₚ names' → occurrences key names = occurrences key names'.
Proof. intros Hperm. unfold occurrences, Py.len. by rewrite Hperm. Qed.

Section ClassWeightsMore.

Context {taxid : Type}.
Variable rank_name : taxid → string → string.

(** The tally of one rank. *)
Lemma tally_positive rank (species_list : list taxid) key v :
  foldl count_one ∅ (rank_names rank_name rank species_list) !! key = Some v →
  1 ≤ v.
Proof.
  intros Hkey.
  exact (count_keys_nonzero ∅ (rank_names rank_name rank species_list)
           (map_Forall_empty _) key v Hkey).
Qed.

Lemma tally_nonneg rank (species_list : list taxid) :
  map_Forall (λ _ v, 0 ≤ v)
    (foldl count_one ∅ (rank_names rank_name rank species_list)).
Proof. intros key v Hkey. apply tally_positive in Hkey. simpl. lia. Qed.

Lemma tally_sum rank (species_list : list taxid) :
  dict_sum (foldl count_one ∅ (rank_names rank_name rank species_list))
  = Py.len species_list.
Proof.
  rewrite count_keys_sum, dict_sum_empty.
  unfold rank_names, Py.len. rewrite length_fmap. lia.
Qed.

Lemma tally_le_entries rank (species_list : list taxid) key v :
  foldl count_one ∅ (rank_names rank_name rank species_list) !! key = Some v →
  v ≤ Py.len species_list.
Proof.
  intros Hkey. rewrite <- (tally_sum rank).
  apply (dict_sum_lookup_le _ key); [apply tally_nonneg | done].
Qed.

Lemma tally_unknown_count_bounds rank (species_list : list taxid) thr :
  0 ≤ unknown_count thr (foldl count_one ∅ (rank_names rank_name rank species_list))
  ≤ Py.len species_list.
Proof.
  set (D := foldl count_one ∅ (rank_names rank_name rank species_list)).
  assert (Hkept : map_Forall (λ _ v, 0 ≤ v) (kept_classes thr D)).
  { intros key v [Hkey _]%kept_classes_Some.
    apply tally_positive in Hkey. simpl. lia. }
  assert (Hlow : map_Forall (λ _ v, 0 ≤ v) (low_classes thr D)).
  { intros key v [Hkey _]%low_classes_Some.
    apply tally_positive in Hkey. simpl. lia. }
  split.
  - unfold unknown_count. pose proof (dict_sum_nonneg _ Hlow).
    destruct (kept_classes thr D !! "unknown") as [v|] eqn:Hu; simpl; [|lia].
    specialize (Hkept _ _ Hu). simpl in Hkept. lia.
  - rewrite <- (tally_sum rank). fold D. rewrite <- (unknown_count_sum thr D).
    rewrite <- insert_delete_eq, dict_sum_insert by apply lookup_delete_eq.
    pose proof (dict_sum_nonneg _ (map_Forall_delete _ _ "unknown" Hkept)). lia.
Qed.

(** A property of the dictionaries of every rank holds of the result
    when it follows from the way the two are built from the tally. *)
Lemma get_classes_and_weights_ranks (species_list : list taxid) unknown_thr
    (P : string → gmap string Z → gmap string Q → Prop) :
  (∀ rank (w : gmap string Q),
     let D := foldl count_one ∅ (rank_names rank_name rank species_list) in
     (∀ key, key ≠ "unknown" →
        w !! key = v ← kept_classes unknown_thr D !! key;
                   Some (inject_Z (Py.len species_list) / inject_Z v)%Q) →
     w !! "unknown"
     = Some (if bool_decide (unknown_count unknown_thr D ≠ 0)
             then (inject_Z (Py.len species_list)
                   / inject_Z (unknown_count unknown_thr D))%Q
             else 1%Q) →
     P rank (<["unknown" := unknown_count unknown_thr D]>
               (kept_classes unknown_thr D)) w) →
  ∃ classes weight_classes,
    get_classes_and_weights_multi_tax rank_name species_list unknown_thr
    = Some (classes, weight_classes)
    ∧ (∀ rank, is_Some (classes !! rank) ↔ rank ∈ rank_keys)
    ∧ (∀ rank, is_Some (weight_classes !! rank) ↔ rank ∈ rank_keys)
    ∧ ∀ rank, rank ∈ rank_keys →
        ∃ classes_tax_i weight_classes_tax_i,
          classes !! rank = Some classes_tax_i
          ∧ weight_classes !! rank = Some weight_classes_tax_i
          ∧ P rank classes_tax_i weight_classes_tax_i.
Proof.
  intros HP.
  destruct (get_classes_and_weights_eval rank_name species_list unknown_thr)
    as (weights & Hrun & Hweights).
  eexists _, _. split; [exact Hrun|].
  assert (Hdom : ∀ {V} (a b c : V) rank,
    is_Some ((<["family" := c]> (<["kingdom" := b]>
                (<["superkingdom" := a]> ∅)) : gmap string V) !! rank)
    ↔ rank ∈ rank_keys).
  { intros V a b c rank. unfold rank_keys.
    rewrite <- elem_of_dom, !dom_insert_L, dom_empty_L.
    rewrite !elem_of_cons, elem_of_nil.
    rewrite !elem_of_union, !elem_of_singleton, elem_of_empty. tauto. }
  split; [apply Hdom|]. split; [apply Hdom|].
  assert (Hrank : ∀ rank, P rank
    (<["unknown" := unknown_count unknown_thr
         (foldl count_one ∅ (rank_names rank_name rank species_list))]>
       (kept_classes unknown_thr
          (foldl count_one ∅ (rank_names rank_name rank species_list))))
    (weights rank)).
  { intros rank. destruct (Hweights rank) as [Hw Hu]. by apply HP. }
  apply rank_keys_cases; eexists _, _.
  - split; [by do 2 (rewrite lookup_insert_ne by done); rewrite lookup_insert_eq|].
    split; [by do 2 (rewrite lookup_insert_ne by done); rewrite lookup_insert_eq|].
    apply Hrank.
  - split; [by rewrite lookup_insert_ne by done; rewrite lookup_insert_eq|].
    split; [by rewrite lookup_insert_ne by done; rewrite lookup_insert_eq|].
    apply Hrank.
  - split; [by rewrite lookup_insert_eq|].
    split; [by rewrite lookup_insert_eq|].
    apply Hrank.
Qed.

(** X18.  The result has the three ranks as its keys and no other,
    in both dictionaries, and at every rank [classes] and
    [weight_classes] have the same keys: a class has a weight exactly
    when it has a count. *)
Theorem classes_and_weights_same_keys (species_list : list taxid) unknown_thr :
  ∃ classes weight_classes,
    get_classes_and_weights_multi_tax rank_name species_list unknown_thr
    = Some (classes, weight_classes)
    ∧ (∀ rank, is_Some (classes !! rank) ↔ rank ∈ rank_keys)
    ∧ (∀ rank, is_Some (weight_classes !! rank) ↔ rank ∈ rank_keys)
    ∧ ∀ rank, rank ∈ rank_keys →
        ∃ classes_tax_i weight_classes_tax_i,
          classes !! rank = Some classes_tax_i
          ∧ weight_classes !! rank = Some weight_classes_tax_i
          ∧ ∀ key, is_Some (classes_tax_i !! key)
                   ↔ is_Some (weight_classes_tax_i !! key).
Proof.
  apply (get_classes_and_weights_ranks species_list unknown_thr
           (λ _ c w, ∀ key, is_Some (c !! key) ↔ is_Some (w !! key))).
  intros rank w D Hw Hu key. destruct (decide (key = "unknown")) as [->|Hne].
  - rewrite lookup_insert_eq, Hu. split; intros _; by eexists.
  - rewrite lookup_insert_ne, (Hw key) by done.
    destruct (kept_classes unknown_thr D !! key); simpl; [|done].
    split; intros _; by eexists.
Qed.

(** X19.  Bounds on the counts that are returned.  A class other than
    ['unknown'] is returned only with a count that is not below
    [unknown_thr], and its count is between 1 and [len(species_list)];
    the count of the ['unknown'] bucket is between 0 and
    [len(species_list)]. *)
Theorem classes_counts_bounds (species_list : list taxid) unknown_thr :
  ∃ classes weight_classes,
    get_classes_and_weights_multi_tax rank_name species_list unknown_thr
    = Some (classes, weight_classes)
    ∧ ∀ rank, rank ∈ rank_keys →
        ∃ classes_tax_i,
          classes !! rank = Some classes_tax_i
          ∧ (∀ key count, key ≠ "unknown" → classes_tax_i !! key = Some count →
               unknown_thr ≤ count ∧ 1 ≤ count ≤ Py.len species_list)
          ∧ ∃ unknown, classes_tax_i !! "unknown" = Some unknown
                       ∧ 0 ≤ unknown ≤ Py.len species_list.
Proof.
  destruct (get_classes_and_weights_ranks species_list unknown_thr
    (λ _ c _,
       (∀ key count, key ≠ "unknown" → c !! key = Some count →
          unknown_thr ≤ count ∧ 1 ≤ count ≤ Py.len species_list)
       ∧ ∃ unknown, c !! "unknown" = Some unknown
                    ∧ 0 ≤ unknown ≤ Py.len species_list))
    as (classes & wc & Hrun & _ & _ & Hranks).
  - intros rank w D _ _. split.
    + intros key count Hne. rewrite lookup_insert_ne by done.
      intros [Hkey Hthr]%kept_classes_Some. split; [done|]. split.
      * by eapply tally_positive.
      * by eapply tally_le_entries.
    + eexists. split; [apply lookup_insert_eq|].
      apply tally_unknown_count_bounds.
  - exists classes, wc. split; [done|]. intros rank Hrank.
    destruct (Hranks rank Hrank) as (c & w & Hc & _ & HP). by exists c.
Qed.

(** X20.  No weight is below 1: every class is weighted up or left
    alone, never down. *)
Theorem weights_at_least_one (species_list : list taxid) unknown_thr :
  ∃ classes weight_classes,
    get_classes_and_weights_multi_tax rank_name species_list unknown_thr
    = Some (classes, weight_classes)
    ∧ ∀ rank, rank ∈ rank_keys →
        ∃ weight_classes_tax_i,
          weight_classes !! rank = Some weight_classes_tax_i
          ∧ ∀ key weight, weight_classes_tax_i !! key = Some weight →
              (1 <= weight)%Q.
Proof.
  destruct (get_classes_and_weights_ranks species_list unknown_thr
    (λ _ _ w, ∀ key weight, w !! key = Some weight → (1 <= weight)%Q))
    as (classes & wc & Hrun & _ & _ & Hranks).
  - intros rank w D Hw Hu key weight.
    destruct (decide (key = "unknown")) as [->|Hne].
    + rewrite Hu. intros [= <-].
      pose proof (tally_unknown_count_bounds rank species_list unknown_thr) as Hb.
      fold D in Hb. case_bool_decide.
      * apply truediv_ge_one. lia.
      * apply Qle_refl.
    + rewrite (Hw key Hne).
      destruct (kept_classes unknown_thr D !! key) as [v|] eqn:Hkey; [|done].
      simpl. intros [= <-]. apply kept_classes_Some in Hkey as [Hkey _].
      apply truediv_ge_one. split.
      * by eapply tally_positive.
      * by eapply tally_le_entries.
  - exists classes, wc. split; [done|]. intros rank Hrank.
    destruct (Hranks rank Hrank) as (c & w & _ & Hw & HP). by exists w.
Qed.

(** X21.  The result depends on which taxa the list holds and how
    often, not on their order. *)
Theorem classes_and_weights_permutation (species_list species_list' : list taxid)
    unknown_thr :
  species_list ≡ₚ species_list' →
  get_classes_and_weights_multi_tax rank_name species_list unknown_thr
  = get_classes_and_weights_multi_tax rank_name species_list' unknown_thr.
Proof.
  intros Hperm.
  assert (Htally : ∀ rank,
    foldl count_one ∅ (rank_names rank_name rank species_list)
    = foldl count_one ∅ (rank_names rank_name rank species_list')).
  { intros rank. apply map_eq. intros key. rewrite !count_keys_lookup.
    rewrite (occurrences_Permutation key _ (rank_names rank_name rank species_list'));
      [done|].
    unfold rank_names. by rewrite Hperm. }
  unfold get_classes_and_weights_multi_tax. rewrite !tally_ranks_eq, !Htally.
  unfold Py.len. by rewrite (Permutation_length Hperm).
Qed.

(** X22.  A threshold above [len(species_list)], as the default 10000
    is for a short list, collapses every class: each rank is left with
    the ['unknown'] bucket alone, holding all entries, with the weight
    [n / n], or 1 for an empty list. *)
Theorem threshold_above_all_counts (species_list : list taxid) unknown_thr :
  Py.len species_list < unknown_thr →
  ∃ classes weight_classes,
    get_classes_and_weights_multi_tax rank_name species_list unknown_thr
    = Some (classes, weight_classes)
    ∧ ∀ rank, rank ∈ rank_keys →
        classes !! rank = Some {[ "unknown" := Py.len species_list ]}
        ∧ weight_classes !! rank
          = Some {[ "unknown" :=
                      if bool_decide (Py.len species_list = 0) then 1%Q
                      else (inject_Z (Py.len species_list)
                            / inject_Z (Py.len species_list))%Q ]}.
Proof.
  intros Hthr.
  destruct (get_classes_and_weights_ranks species_list unknown_thr
    (λ _ c w,
       c = {[ "unknown" := Py.len species_list ]}
       ∧ w = {[ "unknown" :=
                  if bool_decide (Py.len species_list = 0) then 1%Q
                  else (inject_Z (Py.len species_list)
                        / inject_Z (Py.len species_list))%Q ]}))
    as (classes & wc & Hrun & _ & _ & Hranks).
  - intros rank w D Hw Hu.
    assert (Hkept : kept_classes unknown_thr D = ∅).
    { apply map_eq. intros key. rewrite lookup_empty.
      apply eq_None_not_Some. intros [v [Hkey Hv]%kept_classes_Some].
      apply tally_le_entries in Hkey. lia. }
    assert (Hlow : low_classes unknown_thr D = D).
    { apply map_eq. intros key. rewrite low_classes_lookup.
      destruct (D !! key) as [v|] eqn:Hkey; [|done]. simpl.
      apply tally_le_entries in Hkey. by rewrite bool_decide_eq_true_2 by lia. }
    assert (Hcount : unknown_count unknown_thr D = Py.len species_list).
    { unfold unknown_count. rewrite Hkept, Hlow, lookup_empty. simpl.
      subst D. rewrite tally_sum. lia. }
    rewrite Hcount in *. rewrite Hkept in *. split; [apply insert_empty|].
    apply map_eq. intros key. destruct (decide (key = "unknown")) as [->|Hne].
    + rewrite Hu, lookup_singleton_eq. f_equal. by repeat case_bool_decide.
    + rewrite (Hw key Hne), lookup_empty, lookup_singleton_ne; done.
  - exists classes, wc. split; [done|]. intros rank Hrank.
    destruct (Hranks rank Hrank) as (c & w & Hc & Hw & -> & ->). done.
Qed.

(** X23.  A threshold of at most 1 collapses nothing: every name that
    occurs at a rank keeps its number of occurrences and is weighted
    [len(species_list)] divided by it; the ['unknown'] bucket holds
    just the taxa whose name at the rank is ['unknown']. *)
Theorem threshold_at_most_one (species_list : list taxid) unknown_thr :
  unknown_thr ≤ 1 →
  ∃ classes weight_classes,
    get_classes_and_weights_multi_tax rank_name species_list unknown_thr
    = Some (classes, weight_classes)
    ∧ ∀ rank, rank ∈ rank_keys →
        ∃ classes_tax_i weight_classes_tax_i,
          classes !! rank = Some classes_tax_i
          ∧ weight_classes !! rank = Some weight_classes_tax_i
          ∧ classes_tax_i !! "unknown"
            = Some (occurrences "unknown" (rank_names rank_name rank species_list))
          ∧ ∀ key, key ≠ "unknown" →
              let count :=
                occurrences key (rank_names rank_name rank species_list) in
              classes_tax_i !! key
              = (if bool_decide (count = 0) then None else Some count)
              ∧ weight_classes_tax_i !! key
                = (if bool_decide (count = 0) then None
                   else Some (inject_Z (Py.len species_list) / inject_Z count)%Q).
Proof.
  intros Hthr.
  destruct (get_classes_and_weights_ranks species_list unknown_thr
    (λ rank c w,
       c !! "unknown"
       = Some (occurrences "unknown" (rank_names rank_name rank species_list))
       ∧ ∀ key, key ≠ "unknown" →
           let count := occurrences key (rank_names rank_name rank species_list) in
           c !! key = (if bool_decide (count = 0) then None else Some count)
           ∧ w !! key
             = (if bool_decide (count = 0) then None
                else Some (inject_Z (Py.len species_list) / inject_Z count)%Q)))
    as (classes & wc & Hrun & _ & _ & Hranks).
  - intros rank w D Hw Hu.
    assert (Hkept : kept_classes unknown_thr D = D).
    { apply map_eq. intros key. rewrite kept_classes_lookup.
      destruct (D !! key) as [v|] eqn:Hkey; [|done]. simpl.
      apply tally_positive in Hkey. by rewrite bool_decide_eq_false_2 by lia. }
    assert (Hlow : low_classes unknown_thr D = ∅).
    { apply map_eq. intros key. rewrite lookup_empty.
      apply eq_None_not_Some. intros [v [Hkey Hv]%low_classes_Some].
      apply tally_positive in Hkey. lia. }
    assert (HD : ∀ key, D !! key
      = if bool_decide (occurrences key (rank_names rank_name rank species_list) = 0)
        then None
        else Some (occurrences key (rank_names rank_name rank species_list))).
    { intros key. subst D. rewrite count_keys_lookup, lookup_empty. simpl.
      case_bool_decide; [done | f_equal; lia]. }
    split.
    + rewrite lookup_insert_eq. f_equal. unfold unknown_count.
      rewrite Hkept, Hlow, dict_sum_empty, HD. clear Hu Hw.
      case_bool_decide; simpl; lia.
    + intros key Hne count. rewrite lookup_insert_ne, (Hw key Hne), Hkept, HD by done.
      fold count. clear Hu Hw. by case_bool_decide.
  - exists classes, wc. split; [done|]. intros rank Hrank.
    destruct (Hranks rank Hrank) as (c & w & Hc & Hw & HP). by exists c, w.
Qed.

(** X24.  An empty list gives, for every threshold and at every rank,
    an ['unknown'] bucket with count 0 and weight 1 and nothing else. *)
Theorem classes_and_weights_of_empty_list unknown_thr :
  get_classes_and_weights_multi_tax rank_name [] unknown_thr
  = Some (<["family" := {[ "unknown" := 0 ]}]>
            (<["kingdom" := {[ "unknown" := 0 ]}]>
               (<["superkingdom" := {[ "unknown" := 0 ]}]> ∅)),
          <["family" := {[ "unknown" := 1%Q ]}]>
            (<["kingdom" := {[ "unknown" := 1%Q ]}]>
               (<["superkingdom" := {[ "unknown" := 1%Q ]}]> ∅))).
Proof.
  unfold get_classes_and_weights_multi_tax. simpl.
  unfold rank_classes_and_weights. rewrite map_fold_empty. simpl.
  rewrite lookup_empty. simpl. by rewrite !insert_empty.
Qed.

End ClassWeightsMore.

Lemma classes_and_weights_permutation_witness :
  [1; 2; 3]%nat ≡ₚ [3; 1; 2]%nat
  ∧ get_classes_and_weights_multi_tax sample_rank_name [1; 2; 3]%nat 2
    = get_classes_and_weights_multi_tax sample_rank_name [3; 1; 2]%nat 2.
Proof.
  assert (H : [1; 2; 3]%nat ≡ₚ [3; 1; 2]%nat)
    by exact (Permutation_app_comm [1; 2]%nat [3]%nat).
  split; [exact H|].
  exact (classes_and_weights_permutation sample_rank_name _ _ 2 H).
Defined.

Lemma threshold_above_all_counts_witness :
  Py.len [1; 2; 3]%nat < 10000
  ∧ ∃ classes weight_classes,
      get_classes_and_weights_multi_tax sample_rank_name [1; 2; 3]%nat 10000
      = Some (classes, weight_classes)
      ∧ classes !! "kingdom" = Some {[ "unknown" := 3 ]}.
Proof.
  assert (H : Py.len [1; 2; 3]%nat < 10000) by (vm_compute; reflexivity).
  split; [exact H|].
  destruct (threshold_above_all_counts sample_rank_name [1; 2; 3]%nat 10000 H)
    as (classes & wc & Hrun & Hranks).
  exists classes, wc. split; [exact Hrun|].
  destruct (Hranks "kingdom") as [Hc _].
  - unfold rank_keys. apply elem_of_cons. right. apply elem_of_cons. by left.
  - exact Hc.
Defined.

Lemma threshold_at_most_one_witness :
  1 ≤ 1
  ∧ ∃ classes weight_classes,
      get_classes_and_weights_multi_tax sample_rank_name [1; 2; 3]%nat 1
      = Some (classes, weight_classes)
      ∧ ∃ classes_tax_i,
          classes !! "kingdom" = Some classes_tax_i
          ∧ classes_tax_i !! "unknown" = Some 2
          ∧ classes_tax_i !! "Fungi" = Some 1.
Proof.
  assert (H : 1 ≤ 1) by lia. split; [exact H|].
  destruct (threshold_at_most_one sample_rank_name [1; 2; 3]%nat 1 H)
    as (classes & wc & Hrun & Hranks).
  exists classes, wc. split; [exact Hrun|].
  destruct (Hranks "kingdom") as (c & w & Hc & _ & Hu & Hkeys).
  - unfold rank_keys. apply elem_of_cons. right. apply elem_of_cons. by left.
  - exists c. split; [exact Hc|]. split.
    + rewrite Hu. vm_compute. reflexivity.
    + destruct (Hkeys "Fungi") as [Hf _]; [discriminate|].
      rewrite Hf. vm_compute. reflexivity.
Defined.
